(** * validators/validate_example.py: the schema validation engine

    A shallow embedding of the three evaluators of [validate_example.py]
    ([validate_required_fields], [validate_field_types], [validate_organization])
    and of [is_valid_uuid], together with the fragment of Python's dynamic
    semantics they rely on: values as loaded by [json.load] / [yaml.safe_load],
    the built-in operators [==], [<], [in], [len], subscription and [dict.get],
    and the exceptions those operators raise. *)

From Stdlib Require Import List String Ascii Bool ZArith QArith Lia Lqa.
From Stdlib Require Import Floats.SpecFloat DecimalString.
Import ListNotations.
Local Open Scope string_scope.
Local Open Scope list_scope.

(** ** Python values *)

(** The values [json.load] and [yaml.safe_load] produce.  A [dict] is kept as
    the list of its items in insertion order (the order [dict.items()] yields);
    keys are strings, as the annotations [Dict[str, Any]] say.  A [str] is a
    sequence of characters, one [ascii] per character (code points 0-255).
    A [float] is an IEEE value: zero, infinity, NaN or sign/mantissa/exponent. *)
#[warnings="-register-all"]
Inductive value : Type :=
| VNone
| VBool (b : bool)
| VInt (n : Z)
| VFloat (f : spec_float)
| VStr (s : string)
| VList (l : list value)
| VDict (d : list (string * value)).

Definition dict := list (string * value).

(** The built-in exceptions the evaluators can raise. *)
Inductive exn : Type :=
| KeyError (key : string)
| TypeError
| AttributeError.

Definition exn_name (e : exn) : string :=
  match e with
  | KeyError _ => "KeyError"
  | TypeError => "TypeError"
  | AttributeError => "AttributeError"
  end.

(** A computation either returns or raises. *)
Inductive result (A : Type) : Type :=
| Ok (a : A)
| Raise (e : exn).
Arguments Ok {A} a.
Arguments Raise {A} e.

Definition bind {A B : Type} (m : result A) (k : A -> result B) : result B :=
  match m with
  | Ok a => k a
  | Raise e => Raise e
  end.

Notation "x <- m ;; k" := (bind m (fun x => k))
  (at level 61, m at next level, right associativity).

Definition returns {A : Type} (m : result A) : bool :=
  match m with Ok _ => true | Raise _ => false end.

(** ** Numbers

    [bool], [int] and [float] compare by mathematical value in Python (an
    [int] is never rounded to a [float] first), so a number is read as an
    extended rational. *)
Inductive num : Type :=
| NaN
| Inf (negative : bool)
| Fin (q : Q).

Definition num_of_float (f : spec_float) : num :=
  match f with
  | S754_zero _ => Fin 0
  | S754_infinity s => Inf s
  | S754_nan => NaN
  | S754_finite s m e =>
      Fin (inject_Z (if s then Z.neg m else Z.pos m) * Qpower 2 e)
  end.

Definition num_of (v : value) : option num :=
  match v with
  | VBool b => Some (Fin (if b then 1 else 0))
  | VInt n => Some (Fin (inject_Z n))
  | VFloat f => Some (num_of_float f)
  | _ => None
  end.

Definition num_eqb (a b : num) : bool :=
  match a, b with
  | Fin p, Fin q => Qeq_bool p q
  | Inf s, Inf t => Bool.eqb s t
  | _, _ => false
  end.

Definition num_ltb (a b : num) : bool :=
  match a, b with
  | NaN, _ | _, NaN => false
  | Fin p, Fin q => match (p ?= q)%Q with Lt => true | _ => false end
  | Inf s, Inf t => s && negb t
  | Inf s, Fin _ => s
  | Fin _, Inf t => negb t
  end.

(** ** Strings *)

(** [sub in s] on two [str]. *)
Fixpoint is_substring (sub s : string) : bool :=
  String.prefix sub s ||
  match s with
  | EmptyString => false
  | String _ rest => is_substring sub rest
  end.

(** [a < b] on two [str]: lexicographic on code points. *)
Fixpoint str_ltb (a b : string) : bool :=
  match a, b with
  | _, EmptyString => false
  | EmptyString, String _ _ => true
  | String x a', String y b' =>
      if (nat_of_ascii x <? nat_of_ascii y)%nat then true
      else if (nat_of_ascii y <? nat_of_ascii x)%nat then false
      else str_ltb a' b'
  end.

(** [str.lower()] on one character: A-Z and the upper-case letters of
    Latin-1 (U+00C0..U+00DE but the multiplication sign) move up by 32. *)
Definition lower_char (c : ascii) : ascii :=
  let n := nat_of_ascii c in
  if ((65 <=? n) && (n <=? 90))%nat
     || ((192 <=? n) && (n <=? 222) && negb (n =? 215))%nat
  then ascii_of_nat (n + 32)
  else c.

Fixpoint lower (s : string) : string :=
  match s with
  | EmptyString => EmptyString
  | String c rest => String (lower_char c) (lower rest)
  end.

(** ** Built-in operators *)

Definition lookup (k : string) (d : dict) : option value :=
  option_map snd (find (fun kv => String.eqb (fst kv) k) d).

Definition has_key (k : string) (d : dict) : bool :=
  match lookup k d with Some _ => true | None => false end.

(** [a == b].  Values of different kinds are unequal, except that numbers
    compare by value; it never raises on these types. *)
Fixpoint py_eq (a b : value) {struct a} : bool :=
  match a, b with
  | VNone, VNone => true
  | VStr s, VStr t => String.eqb s t
  | VList la, VList lb =>
      (fix all2 (xs ys : list value) {struct xs} : bool :=
         match xs, ys with
         | [], [] => true
         | x :: xs', y :: ys' => py_eq x y && all2 xs' ys'
         | _, _ => false
         end) la lb
  | VDict da, VDict db =>
      Nat.eqb (List.length da) (List.length db) &&
      (fix sub (items : dict) {struct items} : bool :=
         match items with
         | [] => true
         | (k, x) :: items' =>
             match lookup k db with
             | Some y => py_eq x y && sub items'
             | None => false
             end
         end) da
  | _, _ =>
      match num_of a, num_of b with
      | Some x, Some y => num_eqb x y
      | _, _ => false
      end
  end.

(** [a < b]: numbers by value, [str] and [list] lexicographically; any other
    pairing raises [TypeError]. *)
Fixpoint py_lt (a b : value) {struct a} : result bool :=
  match a, b with
  | VStr s, VStr t => Ok (str_ltb s t)
  | VList la, VList lb =>
      (fix first_diff (xs ys : list value) {struct xs} : result bool :=
         match xs, ys with
         | [], [] => Ok false
         | [], _ :: _ => Ok true
         | _ :: _, [] => Ok false
         | x :: xs', y :: ys' =>
             if py_eq x y then first_diff xs' ys' else py_lt x y
         end) la lb
  | _, _ =>
      match num_of a, num_of b with
      | Some x, Some y => Ok (num_ltb x y)
      | _, _ => Raise TypeError
      end
  end.

(** [a > b] is the reflected [b < a] on every built-in type. *)
Definition py_gt (a b : value) : result bool := py_lt b a.

(** [x in c]: key test on a [dict] (an unhashable [x] raises), [==] against
    the elements of a [list], substring test on a [str] (a non-[str] [x]
    raises); anything else is not a container. *)
Definition py_in (x c : value) : result bool :=
  match c with
  | VDict d =>
      match x with
      | VStr k => Ok (has_key k d)
      | VList _ | VDict _ => Raise TypeError
      | _ => Ok false
      end
  | VList l => Ok (existsb (py_eq x) l)
  | VStr s =>
      match x with
      | VStr sub => Ok (is_substring sub s)
      | _ => Raise TypeError
      end
  | _ => Raise TypeError
  end.

(** [c.get(k, default)]: only a [dict] has the method. *)
Definition py_get (c : value) (k : string) (default : value) : result value :=
  match c with
  | VDict d => Ok (match lookup k d with Some v => v | None => default end)
  | _ => Raise AttributeError
  end.

(** [c[k]] with a [str] subscript. *)
Definition py_getitem (c : value) (k : string) : result value :=
  match c with
  | VDict d =>
      match lookup k d with
      | Some v => Ok v
      | None => Raise (KeyError k)
      end
  | _ => Raise TypeError
  end.

(** [len(c)]. *)
Definition py_len (c : value) : result Z :=
  match c with
  | VStr s => Ok (Z.of_nat (String.length s))
  | VList l => Ok (Z.of_nat (List.length l))
  | VDict d => Ok (Z.of_nat (List.length d))
  | _ => Raise TypeError
  end.

(** The sequence [for x in c] runs through. *)
Definition py_iter (c : value) : result (list value) :=
  match c with
  | VList l => Ok l
  | VDict d => Ok (map (fun kv => VStr (fst kv)) d)
  | VStr s => Ok (map (fun ch => VStr (String ch EmptyString)) (list_ascii_of_string s))
  | _ => Raise TypeError
  end.

(** [type(v).__name__]. *)
Definition type_name (v : value) : string :=
  match v with
  | VNone => "NoneType"
  | VBool _ => "bool"
  | VInt _ => "int"
  | VFloat _ => "float"
  | VStr _ => "str"
  | VList _ => "list"
  | VDict _ => "dict"
  end.

(** [isinstance(v, str)], [isinstance(v, int)] ([bool] is a subclass of
    [int]), [isinstance(v, (int, float))], [isinstance(v, list)],
    [isinstance(v, dict)]. *)
Definition isinstance_str (v : value) : bool :=
  match v with VStr _ => true | _ => false end.
Definition isinstance_int (v : value) : bool :=
  match v with VInt _ | VBool _ => true | _ => false end.
Definition isinstance_int_float (v : value) : bool :=
  match v with VInt _ | VBool _ | VFloat _ => true | _ => false end.
Definition isinstance_list (v : value) : bool :=
  match v with VList _ => true | _ => false end.
Definition isinstance_dict (v : value) : bool :=
  match v with VDict _ => true | _ => false end.

(** ** [is_valid_uuid] *)

(** One character of the class [[0-9a-f]]. *)
Definition is_hex_lower (c : ascii) : bool :=
  let n := nat_of_ascii c in
  (((48 <=? n) && (n <=? 57)) || ((97 <=? n) && (n <=? 102)))%nat.

(** [[0-9a-f]{n}]: consume exactly [n] such characters. *)
Fixpoint hex_run (n : nat) (s : string) : option string :=
  match n with
  | O => Some s
  | S n' =>
      match s with
      | String c rest => if is_hex_lower c then hex_run n' rest else None
      | EmptyString => None
      end
  end.

(** The literal [-]. *)
Definition hyphen (s : string) : option string :=
  match s with
  | String c rest => if Ascii.eqb c "-"%char then Some rest else None
  | EmptyString => None
  end.

(** [$]: the end of the string, or just before a newline that ends it. *)
Definition at_end (s : string) : bool :=
  match s with
  | EmptyString => true
  | String c EmptyString => Ascii.eqb c (ascii_of_nat 10)
  | _ => false
  end.

Definition and_then {A B : Type} (o : option A) (k : A -> option B) : option B :=
  match o with Some a => k a | None => None end.

(** [re.match(r'^[0-9a-f]{8}-[0-9a-f]{4}-[0-9a-f]{4}-[0-9a-f]{4}-[0-9a-f]{12}$', s)]
    as a boolean. *)
Definition uuid_pattern (s : string) : bool :=
  match
    and_then (hex_run 8 s) (fun s =>
    and_then (hyphen s) (fun s =>
    and_then (hex_run 4 s) (fun s =>
    and_then (hyphen s) (fun s =>
    and_then (hex_run 4 s) (fun s =>
    and_then (hyphen s) (fun s =>
    and_then (hex_run 4 s) (fun s =>
    and_then (hyphen s) (fun s =>
    hex_run 12 s))))))))
  with
  | Some rest => at_end rest
  | None => false
  end.

(** [value.lower()] exists on a [str] only. *)
Definition is_valid_uuid (value : value) : result bool :=
  match value with
  | VStr s => Ok (uuid_pattern (lower s))
  | _ => Raise AttributeError
  end.

(** [v.startswith(('http://', 'https://'))]. *)
Definition py_startswith_http (v : value) : result bool :=
  match v with
  | VStr s => Ok (String.prefix "http://" s || String.prefix "https://" s)
  | _ => Raise AttributeError
  end.

(** [a and b], [b] evaluated only when [a] holds. *)
Definition and_also (a : bool) (b : result bool) : result bool :=
  if a then b else Ok false.

Definition is_empty {A : Type} (l : list A) : bool :=
  match l with [] => true | _ :: _ => false end.

(** ** The evaluators *)

Section Validator.

(** [str()] of a [float], a [list] or a [dict], as an f-string interpolates
    it; the evaluators only ever paste this text into a message. *)
Variable str_other : value -> string.

(** [f"{v}"]. *)
Definition py_str (v : value) : string :=
  match v with
  | VStr s => s
  | VNone => "None"
  | VBool true => "True"
  | VBool false => "False"
  | VInt n => DecimalString.NilZero.string_of_int (Z.to_int n)
  | _ => str_other v
  end.

Definition missing_required (field : value) : string :=
  "Missing required field: " ++ py_str field.

(** The loop of [validate_required_fields]; [errors] is the list it appends to. *)
Fixpoint required_loop (data : dict) (fields : list value) (errors : list string)
  : result (list string) :=
  match fields with
  | [] => Ok errors
  | field :: rest =>
      present <- py_in field (VDict data) ;;
      required_loop data rest
        (if negb present then errors ++ [missing_required field] else errors)
  end.

Definition validate_required_fields (data : dict) (schema : value)
  : result (bool * list string) :=
  required_fields <- py_get schema "required" (VList []) ;;
  fields <- py_iter required_fields ;;
  errors <- required_loop data fields [] ;;
  Ok (is_empty errors, errors).

Definition must_be (field_name type_word : string) (field_value : value) : string :=
  "Field '" ++ field_name ++ "' must be " ++ type_word ++ ", got "
  ++ type_name field_value.

(** The [if]/[elif] chain on [expected_type]. *)
Definition check_type (expected_type : value) (field_name : string)
    (field_value : value) (errors : list string) : list string :=
  if py_eq expected_type (VStr "string") then
    if negb (isinstance_str field_value)
    then errors ++ [must_be field_name "string" field_value] else errors
  else if py_eq expected_type (VStr "integer") then
    if negb (isinstance_int field_value)
    then errors ++ [must_be field_name "integer" field_value] else errors
  else if py_eq expected_type (VStr "number") then
    if negb (isinstance_int_float field_value)
    then errors ++ [must_be field_name "number" field_value] else errors
  else if py_eq expected_type (VStr "array") then
    if negb (isinstance_list field_value)
    then errors ++ [must_be field_name "array" field_value] else errors
  else if py_eq expected_type (VStr "object") then
    if negb (isinstance_dict field_value)
    then errors ++ [must_be field_name "object" field_value] else errors
  else errors.

Definition not_in_enum (field_name : string) (field_value enum : value) : string :=
  "Field '" ++ field_name ++ "' value '" ++ py_str field_value
  ++ "' not in allowed values: " ++ py_str enum.

Definition check_enum (field_schema : value) (field_name : string)
    (field_value : value) (errors : list string) : result (list string) :=
  has_enum <- py_in (VStr "enum") field_schema ;;
  if has_enum then
    enum <- py_getitem field_schema "enum" ;;
    member <- py_in field_value enum ;;
    if negb member
    then Ok (errors ++ [not_in_enum field_name field_value enum])
    else Ok errors
  else Ok errors.

Definition not_valid (field_name kind : string) : string :=
  "Field '" ++ field_name ++ "' is not a valid " ++ kind.

Definition check_format (field_schema : value) (field_name : string)
    (field_value : value) (errors : list string) : result (list string) :=
  has_format <- py_in (VStr "format") field_schema ;;
  if has_format then
    format_type <- py_getitem field_schema "format" ;;
    bad_uuid <- and_also (py_eq format_type (VStr "uuid"))
                  (ok <- is_valid_uuid field_value ;; Ok (negb ok)) ;;
    if bad_uuid then Ok (errors ++ [not_valid field_name "UUID"]) else
    bad_email <- and_also (py_eq format_type (VStr "email"))
                   (found <- py_in (VStr "@") field_value ;; Ok (negb found)) ;;
    if bad_email then Ok (errors ++ [not_valid field_name "email"]) else
    bad_uri <- and_also (py_eq format_type (VStr "uri"))
                 (ok <- py_startswith_http field_value ;; Ok (negb ok)) ;;
    if bad_uri then Ok (errors ++ [not_valid field_name "URI"]) else
    Ok errors
  else Ok errors.

Definition out_of_bound (field_name what word : string) (bound : value) : string :=
  "Field '" ++ field_name ++ "' " ++ what ++ " (" ++ word ++ ": " ++ py_str bound ++ ")".

(** ['minLength' in field_schema and len(field_value) < field_schema['minLength']] *)
Definition check_min_length (field_schema : value) (field_name : string)
    (field_value : value) (errors : list string) : result (list string) :=
  has_bound <- py_in (VStr "minLength") field_schema ;;
  too_short <- and_also has_bound
                 (n <- py_len field_value ;;
                  bound <- py_getitem field_schema "minLength" ;;
                  py_lt (VInt n) bound) ;;
  if too_short then
    bound <- py_getitem field_schema "minLength" ;;
    Ok (errors ++ [out_of_bound field_name "too short" "min" bound])
  else Ok errors.

Definition check_max_length (field_schema : value) (field_name : string)
    (field_value : value) (errors : list string) : result (list string) :=
  has_bound <- py_in (VStr "maxLength") field_schema ;;
  too_long <- and_also has_bound
                (n <- py_len field_value ;;
                 bound <- py_getitem field_schema "maxLength" ;;
                 py_gt (VInt n) bound) ;;
  if too_long then
    bound <- py_getitem field_schema "maxLength" ;;
    Ok (errors ++ [out_of_bound field_name "too long" "max" bound])
  else Ok errors.

Definition check_length (expected_type field_schema : value) (field_name : string)
    (field_value : value) (errors : list string) : result (list string) :=
  if py_eq expected_type (VStr "string") then
    errors <- check_min_length field_schema field_name field_value errors ;;
    check_max_length field_schema field_name field_value errors
  else Ok errors.

Definition check_minimum (field_schema : value) (field_name : string)
    (field_value : value) (errors : list string) : result (list string) :=
  has_bound <- py_in (VStr "minimum") field_schema ;;
  below <- and_also has_bound
             (bound <- py_getitem field_schema "minimum" ;;
              py_lt field_value bound) ;;
  if below then
    bound <- py_getitem field_schema "minimum" ;;
    Ok (errors ++ [out_of_bound field_name "below minimum" "min" bound])
  else Ok errors.

Definition check_maximum (field_schema : value) (field_name : string)
    (field_value : value) (errors : list string) : result (list string) :=
  has_bound <- py_in (VStr "maximum") field_schema ;;
  above <- and_also has_bound
             (bound <- py_getitem field_schema "maximum" ;;
              py_gt field_value bound) ;;
  if above then
    bound <- py_getitem field_schema "maximum" ;;
    Ok (errors ++ [out_of_bound field_name "above maximum" "max" bound])
  else Ok errors.

Definition check_range (expected_type field_schema : value) (field_name : string)
    (field_value : value) (errors : list string) : result (list string) :=
  if py_eq expected_type (VStr "integer") || py_eq expected_type (VStr "number") then
    errors <- check_minimum field_schema field_name field_value errors ;;
    check_maximum field_schema field_name field_value errors
  else Ok errors.

Definition unknown_field (field_name : string) : string :=
  "Unknown field: " ++ field_name.

(** One turn of the loop of [validate_field_types]. *)
Definition validate_field (properties : value) (field_name : string)
    (field_value : value) (errors : list string) : result (list string) :=
  declared <- py_in (VStr field_name) properties ;;
  if negb declared then Ok (errors ++ [unknown_field field_name]) else
  field_schema <- py_getitem properties field_name ;;
  expected_type <- py_get field_schema "type" VNone ;;
  let errors := check_type expected_type field_name field_value errors in
  errors <- check_enum field_schema field_name field_value errors ;;
  errors <- check_format field_schema field_name field_value errors ;;
  errors <- check_length expected_type field_schema field_name field_value errors ;;
  check_range expected_type field_schema field_name field_value errors.

(** [for field_name, field_value in data.items()]. *)
Fixpoint fields_loop (properties : value) (items : dict) (errors : list string)
  : result (list string) :=
  match items with
  | [] => Ok errors
  | (field_name, field_value) :: rest =>
      errors <- validate_field properties field_name field_value errors ;;
      fields_loop properties rest errors
  end.

Definition validate_field_types (data : dict) (schema : value)
  : result (bool * list string) :=
  properties <- py_get schema "properties" (VDict []) ;;
  errors <- fields_loop properties data [] ;;
  Ok (is_empty errors, errors).

(** [spec['components']['schemas']['Organization']]. *)
Definition organization_schema (spec : dict) : result value :=
  components <- py_getitem (VDict spec) "components" ;;
  schemas <- py_getitem components "schemas" ;;
  py_getitem schemas "Organization".

Definition validate_organization (data spec : dict) : result (bool * list string) :=
  organization_schema <- organization_schema spec ;;
  let all_errors := [] in
  r <- validate_required_fields data organization_schema ;;
  let all_errors := all_errors ++ snd r in
  r <- validate_field_types data organization_schema ;;
  let all_errors := all_errors ++ snd r in
  Ok (is_empty all_errors, all_errors).

End Validator.

(** ** Vocabulary of the statements *)

(** What a check adds to the errors it was handed. *)
Definition prepend (errors : list string) (r : result (list string))
  : result (list string) :=
  match r with
  | Ok added => Ok (errors ++ added)
  | Raise e => Raise e
  end.

(** Run the computations left to right; the first one that raises wins. *)
Fixpoint collect {A : Type} (rs : list (result A)) : result (list A) :=
  match rs with
  | [] => Ok []
  | r :: rest =>
      a <- r ;;
      others <- collect rest ;;
      Ok (a :: others)
  end.

(** The errors of one field are the errors of its five checks, in the order
    type, enum, format, length, range. *)
Definition field_checks (str_other : value -> string)
    (expected_type field_schema : value) (field_name : string)
    (field_value : value) : result (list string) :=
  from_enum <- check_enum str_other field_schema field_name field_value [] ;;
  from_format <- check_format field_schema field_name field_value [] ;;
  from_length <- check_length str_other expected_type field_schema field_name field_value [] ;;
  from_range <- check_range str_other expected_type field_schema field_name field_value [] ;;
  Ok (check_type expected_type field_name field_value []
      ++ from_enum ++ from_format ++ from_length ++ from_range).

(** The pair an evaluator returns has [valid] true exactly on an empty
    error list. *)
Definition verdict_consistent (r : result (bool * list string)) : Prop :=
  match r with
  | Ok (valid, errors) => valid = is_empty errors
  | Raise _ => True
  end.

(** A bound the comparisons accept: absent, or a number. *)
Definition bound_is_number (key : string) (field_schema : dict) : bool :=
  match lookup key field_schema with
  | None => true
  | Some bound => match num_of bound with Some _ => true | None => false end
  end.


(** The characters [str.lower()] sends into [[0-9a-f]]: a hexadecimal digit
    in either case. *)
Definition is_hex_digit (c : ascii) : bool :=
  let n := nat_of_ascii c in
  (((48 <=? n) && (n <=? 57)) || ((65 <=? n) && (n <=? 70))
   || ((97 <=? n) && (n <=? 102)))%nat.

Fixpoint all_chars (p : ascii -> bool) (s : string) : bool :=
  match s with
  | EmptyString => true
  | String c rest => p c && all_chars p rest
  end.

(** [n] hexadecimal digits. *)
Definition hex_group (n : nat) (s : string) : Prop :=
  String.length s = n /\ all_chars is_hex_digit s = true.

Definition newline : string := String (ascii_of_nat 10) EmptyString.

(** 8-4-4-4-12 hexadecimal digits between hyphens, then nothing or one
    newline. *)
Definition uuid_shape (s : string) : Prop :=
  exists a b c d e tail : string,
    s = (a ++ "-" ++ b ++ "-" ++ c ++ "-" ++ d ++ "-" ++ e ++ tail)%string
    /\ hex_group 8 a /\ hex_group 4 b /\ hex_group 4 c /\ hex_group 4 d
    /\ hex_group 12 e
    /\ (tail = EmptyString \/ tail = newline).

(** The values a declared type admits; a type other than the five names
    admits everything. *)
Definition conforms (expected_type field_value : value) : bool :=
  if py_eq expected_type (VStr "string") then isinstance_str field_value
  else if py_eq expected_type (VStr "integer") then isinstance_int field_value
  else if py_eq expected_type (VStr "number") then isinstance_int_float field_value
  else if py_eq expected_type (VStr "array") then isinstance_list field_value
  else if py_eq expected_type (VStr "object") then isinstance_dict field_value
  else true.

(** What the constraints of a field schema ask of a value: membership in
    the [enum] list, the format, the length bounds of a field declared
    "string" and the range bounds of one declared "integer" or "number". *)
Definition satisfies_enum (field_schema : dict) (field_value : value) : Prop :=
  forall allowed,
    lookup "enum" field_schema = Some (VList allowed) ->
    existsb (py_eq field_value) allowed = true.

Definition satisfies_format (field_schema : dict) (field_value : value) : Prop :=
  (lookup "format" field_schema = Some (VStr "uuid") ->
   exists s, field_value = VStr s /\ uuid_pattern (lower s) = true)
  /\ (lookup "format" field_schema = Some (VStr "email") ->
      py_in (VStr "@") field_value = Ok true)
  /\ (lookup "format" field_schema = Some (VStr "uri") ->
      exists s, field_value = VStr s
                /\ String.prefix "http://" s || String.prefix "https://" s = true).

Definition satisfies_length (field_schema : dict) (field_value : value) : Prop :=
  lookup "type" field_schema = Some (VStr "string") ->
  (forall a, lookup "minLength" field_schema = Some (VInt a) ->
             exists len, py_len field_value = Ok len /\ (a <= len)%Z)
  /\ (forall b, lookup "maxLength" field_schema = Some (VInt b) ->
                exists len, py_len field_value = Ok len /\ (len <= b)%Z).

Definition satisfies_range (field_schema : dict) (field_value : value) : Prop :=
  lookup "type" field_schema = Some (VStr "integer")
  \/ lookup "type" field_schema = Some (VStr "number") ->
  (forall bound y, lookup "minimum" field_schema = Some bound ->
                   num_of bound = Some y ->
                   exists x, num_of field_value = Some x /\ num_ltb x y = false)
  /\ (forall bound y, lookup "maximum" field_schema = Some bound ->
                      num_of bound = Some y ->
                      exists x, num_of field_value = Some x /\ num_ltb y x = false).

(** A message that names the field it is about. *)
Definition names_field (field_name message : string) : Prop :=
  message = ("Unknown field: " ++ field_name)%string
  \/ exists rest, message = ("Field '" ++ field_name ++ "' " ++ rest)%string.

(** A formatter for closed examples: a float or a container prints as the
    name of its type in angle brackets. *)
Definition tag_text (v : value) : string :=
  "<" ++ type_name v ++ ">".

(** A schema whose only property is [field_name], under [field_schema]. *)
Definition schema_of_field (field_name : string) (field_schema : dict) : value :=
  VDict [("properties", VDict [(field_name, VDict field_schema)])].

(** A contract document holding [schema] as [components.schemas.Organization]. *)
Definition contract_of (schema : value) : dict :=
  [("components", VDict [("schemas", VDict [("Organization", schema)])])].

(** ** Basic facts *)

Lemma prepend_nil (r : result (list string)) : prepend [] r = r.
Proof. destruct r; reflexivity. Qed.

Lemma prepend_prepend (e1 e2 : list string) (r : result (list string)) :
  prepend e1 (prepend e2 r) = prepend (e1 ++ e2) r.
Proof. destruct r; simpl; [rewrite app_assoc|]; reflexivity. Qed.

Lemma is_empty_app {A : Type} (l1 l2 : list A) :
  is_empty (l1 ++ l2) = is_empty l1 && is_empty l2.
Proof. destruct l1; reflexivity. Qed.

Lemma lookup_In (k : string) (v : value) (d : dict) :
  In (k, v) d -> has_key k d = true.
Proof.
  unfold has_key, lookup. induction d as [|[k' v'] d IH]; simpl; [tauto|].
  intros [H|H].
  - inversion H; subst. rewrite String.eqb_refl. reflexivity.
  - destruct (String.eqb k' k); [reflexivity|]. apply IH, H.
Qed.

(** ** Every check only appends *)

Ltac step_checks :=
  repeat match goal with
    | |- context [bind ?m _] => destruct m; simpl
    | |- context [and_also ?b _] => destruct b; simpl
    | |- context [if ?b then _ else _] => destruct b; simpl
    end;
  rewrite ?app_nil_l, ?app_nil_r; try reflexivity.

Lemma check_type_appends expected_type field_name field_value errors :
  check_type expected_type field_name field_value errors
  = errors ++ check_type expected_type field_name field_value [].
Proof. unfold check_type. step_checks. Qed.

Section Appends.
Variable str_other : value -> string.

Lemma check_enum_appends field_schema field_name field_value errors :
  check_enum str_other field_schema field_name field_value errors
  = prepend errors (check_enum str_other field_schema field_name field_value []).
Proof. unfold check_enum. step_checks. Qed.

Lemma check_format_appends field_schema field_name field_value errors :
  check_format field_schema field_name field_value errors
  = prepend errors (check_format field_schema field_name field_value []).
Proof. unfold check_format. step_checks. Qed.

Lemma check_min_length_appends field_schema field_name field_value errors :
  check_min_length str_other field_schema field_name field_value errors
  = prepend errors (check_min_length str_other field_schema field_name field_value []).
Proof. unfold check_min_length. step_checks. Qed.

Lemma check_max_length_appends field_schema field_name field_value errors :
  check_max_length str_other field_schema field_name field_value errors
  = prepend errors (check_max_length str_other field_schema field_name field_value []).
Proof. unfold check_max_length. step_checks. Qed.

Lemma check_minimum_appends field_schema field_name field_value errors :
  check_minimum str_other field_schema field_name field_value errors
  = prepend errors (check_minimum str_other field_schema field_name field_value []).
Proof. unfold check_minimum. step_checks. Qed.

Lemma check_maximum_appends field_schema field_name field_value errors :
  check_maximum str_other field_schema field_name field_value errors
  = prepend errors (check_maximum str_other field_schema field_name field_value []).
Proof. unfold check_maximum. step_checks. Qed.

End Appends.

Section Composition.
Variable str_other : value -> string.

Lemma check_length_appends expected_type field_schema field_name field_value errors :
  check_length str_other expected_type field_schema field_name field_value errors
  = prepend errors
      (check_length str_other expected_type field_schema field_name field_value []).
Proof.
  unfold check_length. destruct (py_eq expected_type (VStr "string")); simpl.
  - rewrite check_min_length_appends.
    destruct (check_min_length str_other field_schema field_name field_value [])
      as [added|e]; simpl; [|reflexivity].
    rewrite check_max_length_appends, (check_max_length_appends _ _ _ _ added).
    symmetry. apply prepend_prepend.
  - rewrite app_nil_r. reflexivity.
Qed.

Lemma check_range_appends expected_type field_schema field_name field_value errors :
  check_range str_other expected_type field_schema field_name field_value errors
  = prepend errors
      (check_range str_other expected_type field_schema field_name field_value []).
Proof.
  unfold check_range.
  destruct (py_eq expected_type (VStr "integer") || py_eq expected_type (VStr "number"));
    simpl.
  - rewrite check_minimum_appends.
    destruct (check_minimum str_other field_schema field_name field_value [])
      as [added|e]; simpl; [|reflexivity].
    rewrite check_maximum_appends, (check_maximum_appends _ _ _ _ added).
    symmetry. apply prepend_prepend.
  - rewrite app_nil_r. reflexivity.
Qed.

Lemma checks_in_order expected_type field_schema field_name field_value errors :
  (let errors := check_type expected_type field_name field_value errors in
   errors <- check_enum str_other field_schema field_name field_value errors ;;
   errors <- check_format field_schema field_name field_value errors ;;
   errors <- check_length str_other expected_type field_schema field_name field_value errors ;;
   check_range str_other expected_type field_schema field_name field_value errors)
  = prepend errors
      (field_checks str_other expected_type field_schema field_name field_value).
Proof.
  unfold field_checks. cbv zeta.
  rewrite check_enum_appends.
  destruct (check_enum str_other field_schema field_name field_value []) as [e1|x];
    simpl; [|reflexivity].
  rewrite check_format_appends.
  destruct (check_format field_schema field_name field_value []) as [e2|x];
    simpl; [|reflexivity].
  rewrite check_length_appends.
  destruct (check_length str_other expected_type field_schema field_name field_value [])
    as [e3|x]; simpl; [|reflexivity].
  rewrite check_range_appends.
  destruct (check_range str_other expected_type field_schema field_name field_value [])
    as [e4|x]; simpl; [|reflexivity].
  rewrite (check_type_appends _ _ _ errors), <- !app_assoc. reflexivity.
Qed.

Lemma validate_field_appends properties field_name field_value errors :
  validate_field str_other properties field_name field_value errors
  = prepend errors (validate_field str_other properties field_name field_value []).
Proof.
  unfold validate_field.
  destruct (py_in (VStr field_name) properties) as [declared|x]; simpl; [|reflexivity].
  destruct declared; simpl; [|reflexivity].
  destruct (py_getitem properties field_name) as [field_schema|x]; simpl; [|reflexivity].
  destruct (py_get field_schema "type" VNone) as [expected_type|x]; simpl; [|reflexivity].
  rewrite !checks_in_order, prepend_nil. reflexivity.
Qed.

(** The loop hands every field the errors so far; what it returns is those
    errors followed by each field's own, in the order of [data.items()]. *)
Lemma fields_loop_collect properties items errors :
  fields_loop str_other properties items errors
  = per_field <- collect (map (fun item =>
        validate_field str_other properties (fst item) (snd item) []) items) ;;
    Ok (errors ++ List.concat per_field).
Proof.
  revert errors. induction items as [|[field_name field_value] items IH]; intros errors; simpl.
  - rewrite app_nil_r. reflexivity.
  - rewrite validate_field_appends.
    destruct (validate_field str_other properties field_name field_value [])
      as [own|x]; simpl; [|reflexivity].
    rewrite IH.
    destruct (collect _) as [per_field|x]; simpl; [|reflexivity].
    rewrite app_assoc. reflexivity.
Qed.

Lemma fields_loop_app properties items1 items2 errors :
  fields_loop str_other properties (items1 ++ items2) errors
  = errors <- fields_loop str_other properties items1 errors ;;
    fields_loop str_other properties items2 errors.
Proof.
  revert errors. induction items1 as [|[field_name field_value] items1 IH];
    intros errors; simpl; [reflexivity|].
  destruct (validate_field str_other properties field_name field_value errors);
    simpl; [apply IH|reflexivity].
Qed.

(** On a list of names, the required-field loop keeps the absent ones. *)
Lemma required_loop_names data names errors :
  required_loop str_other data (map VStr names) errors
  = Ok (errors ++ map (fun name => missing_required str_other (VStr name))
                    (filter (fun name => negb (has_key name data)) names)).
Proof.
  revert errors. induction names as [|name names IH]; intros errors; simpl.
  - rewrite app_nil_r. reflexivity.
  - rewrite IH. destruct (has_key name data); simpl; [reflexivity|].
    rewrite <- app_assoc. reflexivity.
Qed.

End Composition.

(** ** The required-field evaluator *)

(** C5.  When the schema's [required] entry is a list of names (or is
    absent, which stands for the empty list), [validate_required_fields]
    returns one error "Missing required field: <name>" for each name of the
    list that is not a key of the instance, in the order of the list, and
    nothing else; its verdict is the emptiness of that list.  A name that is
    a key of the instance is never reported, whatever value it carries
    ([None], an empty string, an empty container). *)
Theorem required_fields_missing_in_order :
  forall (str_other : value -> string) (data : dict) (schema : value)
         (names : list string),
    py_get schema "required" (VList []) = Ok (VList (map VStr names)) ->
    let missing := filter (fun name => negb (has_key name data)) names in
    let errors := map (fun name => ("Missing required field: " ++ name)%string) missing in
    validate_required_fields str_other data schema = Ok (is_empty errors, errors)
    /\ (forall name v, In (name, v) data ->
          ~ In ("Missing required field: " ++ name)%string errors).
Proof.
  intros str_other data schema names Hreq missing errors. split.
  - unfold validate_required_fields. rewrite Hreq. simpl.
    rewrite required_loop_names. simpl. reflexivity.
  - intros name v Hin Hmsg. apply in_map_iff in Hmsg as [other [Heq Hother]].
    simpl in Heq. injection Heq as Heq. subst other.
    apply filter_In in Hother as [_ Habsent].
    rewrite (lookup_In _ _ _ Hin) in Habsent. discriminate.
Qed.

Lemma required_fields_missing_in_order_witness :
  validate_required_fields tag_text
    [("name", VNone); ("category", VStr "")]
    (VDict [("required", VList (map VStr ["external_id"; "name"; "category"; "owner"]))])
  = Ok (false, ["Missing required field: external_id"; "Missing required field: owner"]).
Proof.
  exact (proj1 (required_fields_missing_in_order tag_text
    [("name", VNone); ("category", VStr "")]
    (VDict [("required", VList (map VStr ["external_id"; "name"; "category"; "owner"]))])
    ["external_id"; "name"; "category"; "owner"] eq_refl)).
Defined.

(** ** The per-field evaluator *)

(** C6.  A field of the instance whose name is not a key of [properties]
    makes its turn of the loop append the single error "Unknown field:
    <name>" and return, whatever the value is: no type, enum, format, length
    or range check is reached.  In a whole pass the result is that of the
    fields before it, then this one error, then that of the fields after it,
    so it does not depend on the field's value. *)
Theorem unknown_field_isolated :
  forall (str_other : value -> string) (properties : dict) (field_name : string),
    has_key field_name properties = false ->
    (forall field_value errors,
        validate_field str_other (VDict properties) field_name field_value errors
        = Ok (errors ++ [("Unknown field: " ++ field_name)%string]))
    /\ (forall schema before field_value after,
          py_get schema "properties" (VDict []) = Ok (VDict properties) ->
          validate_field_types str_other (before ++ (field_name, field_value) :: after) schema
          = (errors <- fields_loop str_other (VDict properties) before [] ;;
             errors <- fields_loop str_other (VDict properties) after
                         (errors ++ [("Unknown field: " ++ field_name)%string]) ;;
             Ok (is_empty errors, errors))).
Proof.
  intros str_other properties field_name Hnew.
  assert (Hturn : forall field_value errors,
    validate_field str_other (VDict properties) field_name field_value errors
    = Ok (errors ++ [("Unknown field: " ++ field_name)%string])).
  { intros. unfold validate_field. simpl. rewrite Hnew. reflexivity. }
  split; [exact Hturn|].
  intros schema before field_value after Hprops.
  unfold validate_field_types. rewrite Hprops. simpl.
  rewrite fields_loop_app.
  destruct (fields_loop str_other (VDict properties) before []) as [errors|x];
    simpl; [|reflexivity].
  rewrite Hturn. reflexivity.
Qed.

Lemma unknown_field_isolated_witness :
  validate_field tag_text (VDict [("name", VDict [("type", VStr "string")])])
    "nickname" (VList [VInt 1; VNone]) ["earlier"]
  = Ok ["earlier"; "Unknown field: nickname"].
Proof.
  exact (proj1 (unknown_field_isolated tag_text
    [("name", VDict [("type", VStr "string")])] "nickname" eq_refl)
    (VList [VInt 1; VNone]) ["earlier"]).
Defined.

(** ** The orchestrator *)

(** C4.  [validate_organization] returns the errors of
    [validate_required_fields] followed by the errors of the fields of the
    instance, field after field in the order of [data.items()], with the
    verdict [valid = (errors is empty)]; and the errors of one declared
    field are those of its type check, then enum, format, length and range.
    Both sides raise alike when a step raises. *)
Theorem orchestrator_error_order :
  forall (str_other : value -> string) (data spec : dict),
    validate_organization str_other data spec
    = (schema <- organization_schema spec ;;
       required <- validate_required_fields str_other data schema ;;
       properties <- py_get schema "properties" (VDict []) ;;
       per_field <- collect (map (fun item =>
           validate_field str_other properties (fst item) (snd item) []) data) ;;
       let errors := snd required ++ List.concat per_field in
       Ok (is_empty errors, errors))
    /\ (forall properties field_name field_value,
          validate_field str_other properties field_name field_value []
          = (declared <- py_in (VStr field_name) properties ;;
             if negb declared then Ok [("Unknown field: " ++ field_name)%string] else
             field_schema <- py_getitem properties field_name ;;
             expected_type <- py_get field_schema "type" VNone ;;
             from_enum <- check_enum str_other field_schema field_name field_value [] ;;
             from_format <- check_format field_schema field_name field_value [] ;;
             from_length <- check_length str_other expected_type field_schema
                              field_name field_value [] ;;
             from_range <- check_range str_other expected_type field_schema
                             field_name field_value [] ;;
             Ok (check_type expected_type field_name field_value []
                 ++ from_enum ++ from_format ++ from_length ++ from_range))).
Proof.
  intros str_other data spec. split.
  - unfold validate_organization.
    destruct (organization_schema spec) as [schema|x]; simpl; [|reflexivity].
    destruct (validate_required_fields str_other data schema) as [required|x];
      simpl; [|reflexivity].
    unfold validate_field_types.
    destruct (py_get schema "properties" (VDict [])) as [properties|x];
      simpl; [|reflexivity].
    rewrite fields_loop_collect.
    destruct (collect _) as [per_field|x]; simpl; reflexivity.
  - intros properties field_name field_value. unfold validate_field.
    destruct (py_in (VStr field_name) properties) as [declared|x]; simpl; [|reflexivity].
    destruct declared; simpl; [|reflexivity].
    destruct (py_getitem properties field_name) as [field_schema|x]; simpl; [|reflexivity].
    destruct (py_get field_schema "type" VNone) as [expected_type|x]; simpl; [|reflexivity].
    rewrite checks_in_order, prepend_nil. reflexivity.
Qed.

Lemma validate_required_fields_consistent str_other data schema :
  verdict_consistent (validate_required_fields str_other data schema).
Proof.
  unfold validate_required_fields.
  destruct (py_get schema "required" (VList [])); simpl; [|exact I].
  destruct (py_iter a); simpl; [|exact I].
  destruct (required_loop str_other data a0 []); simpl; [reflexivity|exact I].
Qed.

Lemma validate_field_types_consistent str_other data schema :
  verdict_consistent (validate_field_types str_other data schema).
Proof.
  unfold validate_field_types.
  destruct (py_get schema "properties" (VDict [])); simpl; [|exact I].
  destruct (fields_loop str_other a data []); simpl; [reflexivity|exact I].
Qed.

(** C10.  Whatever the inputs, the pair that [validate_required_fields],
    [validate_field_types] or [validate_organization] returns has its
    boolean equal to the emptiness of its error list, so it is [(true, [])]
    or [(false, non-empty)]; and the orchestrator's verdict is true exactly
    when both evaluators produced no error. *)
Theorem verdict_is_emptiness :
  forall (str_other : value -> string) (data spec : dict) (schema : value),
    verdict_consistent (validate_required_fields str_other data schema)
    /\ verdict_consistent (validate_field_types str_other data schema)
    /\ verdict_consistent (validate_organization str_other data spec)
    /\ validate_organization str_other data spec
       = (schema <- organization_schema spec ;;
          required <- validate_required_fields str_other data schema ;;
          typed <- validate_field_types str_other data schema ;;
          Ok (is_empty (snd required) && is_empty (snd typed),
              snd required ++ snd typed)).
Proof.
  intros str_other data spec schema.
  split; [apply validate_required_fields_consistent|].
  split; [apply validate_field_types_consistent|].
  assert (Heq : validate_organization str_other data spec
       = (schema <- organization_schema spec ;;
          required <- validate_required_fields str_other data schema ;;
          typed <- validate_field_types str_other data schema ;;
          Ok (is_empty (snd required) && is_empty (snd typed),
              snd required ++ snd typed))).
  { unfold validate_organization.
    destruct (organization_schema spec) as [s|x]; simpl; [|reflexivity].
    destruct (validate_required_fields str_other data s) as [r1|x]; simpl; [|reflexivity].
    destruct (validate_field_types str_other data s) as [r2|x]; simpl; [|reflexivity].
    rewrite is_empty_app. reflexivity. }
  split; [|exact Heq].
  rewrite Heq.
  destruct (organization_schema spec) as [s|x]; simpl; [|exact I].
  destruct (validate_required_fields str_other data s) as [r1|x]; simpl; [|exact I].
  destruct (validate_field_types str_other data s) as [r2|x]; simpl; [|exact I].
  symmetry. apply is_empty_app.
Qed.

(** ** Length and range bounds *)

Lemma py_lt_numbers (a b : value) (x y : num) :
  num_of a = Some x -> num_of b = Some y -> py_lt a b = Ok (num_ltb x y).
Proof.
  intros Ha Hb.
  destruct a; simpl in Ha; try discriminate;
    destruct b; simpl in Hb; try discriminate;
    injection Ha as <-; injection Hb as <-; reflexivity.
Qed.

Lemma num_ltb_equal (p q : Q) : (q == p)%Q -> num_ltb (Fin q) (Fin p) = false.
Proof. intros H. unfold num_ltb. rewrite (proj1 (Qeq_alt q p) H). reflexivity. Qed.

Lemma num_ltb_one_below (p q : Q) : (q == p - 1)%Q -> num_ltb (Fin q) (Fin p) = true.
Proof.
  intros H. unfold num_ltb.
  assert (Hlt : (q < p)%Q) by (rewrite H; lra).
  rewrite (proj1 (Qlt_alt q p) Hlt). reflexivity.
Qed.

Lemma num_ltb_int (a b : Z) :
  num_ltb (Fin (inject_Z a)) (Fin (inject_Z b)) = (a <? b)%Z.
Proof.
  unfold num_ltb, Qcompare, inject_Z. cbn [Qnum Qden].
  rewrite !Z.mul_1_r. unfold Z.ltb. reflexivity.
Qed.

Lemma has_key_lookup (k : string) (d : dict) (v : value) :
  lookup k d = Some v -> has_key k d = true.
Proof. unfold has_key. intros ->. reflexivity. Qed.

Section Bounds.
Variable str_other : value -> string.

Lemma check_max_length_str field_schema field_name s n errors :
  lookup "maxLength" field_schema = Some (VInt n) ->
  check_max_length str_other (VDict field_schema) field_name (VStr s) errors
  = Ok (if (n <? Z.of_nat (String.length s))%Z
        then errors ++ [out_of_bound str_other field_name "too long" "max" (VInt n)]
        else errors).
Proof.
  intros Hbound. unfold check_max_length, py_gt. simpl.
  rewrite (has_key_lookup _ _ _ Hbound), Hbound. simpl.
  change (match (inject_Z n ?= inject_Z (Z.of_nat (String.length s)))%Q with
          | Lt => true | _ => false end)
    with (num_ltb (Fin (inject_Z n)) (Fin (inject_Z (Z.of_nat (String.length s))))).
  rewrite num_ltb_int.
  destruct (n <? Z.of_nat (String.length s))%Z; reflexivity.
Qed.

Lemma check_minimum_number field_schema field_name field_value bound x y errors :
  lookup "minimum" field_schema = Some bound ->
  num_of field_value = Some x -> num_of bound = Some y ->
  check_minimum str_other (VDict field_schema) field_name field_value errors
  = Ok (if num_ltb x y
        then errors ++ [out_of_bound str_other field_name "below minimum" "min" bound]
        else errors).
Proof.
  intros Hbound Hx Hy. unfold check_minimum. simpl.
  rewrite (has_key_lookup _ _ _ Hbound), Hbound. simpl.
  rewrite (py_lt_numbers _ _ _ _ Hx Hy). simpl.
  destruct (num_ltb x y); reflexivity.
Qed.

End Bounds.

(** C8.  Bounds are inclusive.  For a field declared [string] whose schema
    has [maxLength] n, the length check of a string of exactly n characters
    adds no "too long" error (it returns what the [minLength] check
    returns), and of a string of n + 1 characters adds
    "Field '<name>' too long (max: n)".  For a field declared [integer] or
    [number] whose schema has a [minimum], the range check of a number equal
    to the minimum adds no "below minimum" error (it returns what the
    [maximum] check returns), and of a number one unit below it adds
    "Field '<name>' below minimum (min: <minimum>)" before the [maximum]
    check runs.  Numbers are [int], [bool] or finite [float], compared by
    value. *)
Theorem bounds_are_inclusive :
  forall (str_other : value -> string) (field_schema : dict) (field_name : string)
         (errors : list string),
    (forall (n : Z) (s : string),
        lookup "maxLength" field_schema = Some (VInt n) ->
        (Z.of_nat (String.length s) = n ->
         check_length str_other (VStr "string") (VDict field_schema) field_name
           (VStr s) errors
         = check_min_length str_other (VDict field_schema) field_name (VStr s) errors)
        /\ (Z.of_nat (String.length s) = (n + 1)%Z ->
            check_length str_other (VStr "string") (VDict field_schema) field_name
              (VStr s) errors
            = (errors <- check_min_length str_other (VDict field_schema) field_name
                           (VStr s) errors ;;
               Ok (errors ++ [("Field '" ++ field_name ++ "' too long (max: "
                               ++ py_str str_other (VInt n) ++ ")")%string]))))
    /\ (forall (expected_type : string) (bound field_value : value) (p q : Q),
          expected_type = "integer" \/ expected_type = "number" ->
          lookup "minimum" field_schema = Some bound ->
          num_of bound = Some (Fin p) ->
          num_of field_value = Some (Fin q) ->
          ((q == p)%Q ->
           check_range str_other (VStr expected_type) (VDict field_schema) field_name
             field_value errors
           = check_maximum str_other (VDict field_schema) field_name field_value errors)
          /\ ((q == p - 1)%Q ->
              check_range str_other (VStr expected_type) (VDict field_schema) field_name
                field_value errors
              = check_maximum str_other (VDict field_schema) field_name field_value
                  (errors ++ [("Field '" ++ field_name ++ "' below minimum (min: "
                               ++ py_str str_other bound ++ ")")%string]))).
Proof.
  intros str_other field_schema field_name errors. split.
  - intros n s Hbound. unfold check_length. simpl. split; intros Hlen.
    + destruct (check_min_length str_other (VDict field_schema) field_name (VStr s) errors)
        as [errors'|x]; simpl; [|reflexivity].
      rewrite (check_max_length_str _ _ _ _ _ _ Hbound), Hlen, Z.ltb_irrefl. reflexivity.
    + destruct (check_min_length str_other (VDict field_schema) field_name (VStr s) errors)
        as [errors'|x]; simpl; [|reflexivity].
      rewrite (check_max_length_str _ _ _ _ _ _ Hbound), Hlen.
      replace (n <? n + 1)%Z with true by (symmetry; apply Z.ltb_lt; lia).
      reflexivity.
  - intros expected_type bound field_value p q Htype Hbound Hp Hq.
    assert (Hgate : py_eq (VStr expected_type) (VStr "integer")
                    || py_eq (VStr expected_type) (VStr "number") = true)
      by (destruct Htype; subst; reflexivity).
    unfold check_range. rewrite Hgate.
    rewrite (check_minimum_number _ _ _ _ _ _ _ _ Hbound Hq Hp).
    split; intros Hval.
    + rewrite (num_ltb_equal _ _ Hval). reflexivity.
    + rewrite (num_ltb_one_below _ _ Hval). reflexivity.
Qed.

Lemma bounds_are_inclusive_witness :
  (check_length tag_text (VStr "string")
     (VDict [("type", VStr "string"); ("maxLength", VInt 3)]) "name" (VStr "abc") []
   = Ok []
   /\ check_length tag_text (VStr "string")
        (VDict [("type", VStr "string"); ("maxLength", VInt 3)]) "name" (VStr "abcd") []
      = Ok ["Field 'name' too long (max: 3)"])
  /\ (check_range tag_text (VStr "integer")
        (VDict [("type", VStr "integer"); ("minimum", VInt 10)]) "age" (VInt 10) []
      = Ok []
      /\ check_range tag_text (VStr "integer")
           (VDict [("type", VStr "integer"); ("minimum", VInt 10)]) "age" (VInt 9) []
         = Ok ["Field 'age' below minimum (min: 10)"])
  /\ (check_range tag_text (VStr "number")
        (VDict [("minimum", VInt 1)]) "ratio" (VFloat (S754_finite false 1 0)) []
      = Ok []
      /\ check_range tag_text (VStr "number")
           (VDict [("minimum", VInt 1)]) "ratio" (VFloat (S754_zero false)) []
         = Ok ["Field 'ratio' below minimum (min: 1)"]).
Proof.
  split; [|split].
  - exact (conj
      (proj1 (proj1 (bounds_are_inclusive tag_text
         [("type", VStr "string"); ("maxLength", VInt 3)] "name" [])
         3%Z "abc" eq_refl) eq_refl)
      (proj2 (proj1 (bounds_are_inclusive tag_text
         [("type", VStr "string"); ("maxLength", VInt 3)] "name" [])
         3%Z "abcd" eq_refl) eq_refl)).
  - exact (conj
      (proj1 (proj2 (bounds_are_inclusive tag_text
         [("type", VStr "integer"); ("minimum", VInt 10)] "age" [])
         "integer" (VInt 10) (VInt 10) _ _ (or_introl eq_refl) eq_refl eq_refl eq_refl)
         eq_refl)
      (proj2 (proj2 (bounds_are_inclusive tag_text
         [("type", VStr "integer"); ("minimum", VInt 10)] "age" [])
         "integer" (VInt 10) (VInt 9) _ _ (or_introl eq_refl) eq_refl eq_refl eq_refl)
         eq_refl)).
  - exact (conj
      (proj1 (proj2 (bounds_are_inclusive tag_text
         [("minimum", VInt 1)] "ratio" [])
         "number" (VInt 1) (VFloat (S754_finite false 1 0))
         _ _ (or_intror eq_refl) eq_refl eq_refl eq_refl) eq_refl)
      (proj2 (proj2 (bounds_are_inclusive tag_text
         [("minimum", VInt 1)] "ratio" [])
         "number" (VInt 1) (VFloat (S754_zero false))
         _ _ (or_intror eq_refl) eq_refl eq_refl eq_refl) eq_refl)).
Defined.

(** ** Values that do not support a check *)

(** A value with no length makes the length check of a field declared
    [string] raise as soon as the schema has a [minLength]. *)
Lemma length_check_needs_a_length str_other field_schema field_name field_value errors :
  has_key "minLength" field_schema = true ->
  py_len field_value = Raise TypeError ->
  check_length str_other (VStr "string") (VDict field_schema) field_name field_value errors
  = Raise TypeError.
Proof.
  intros Hkey Hlen. unfold check_length, check_min_length. simpl.
  rewrite Hkey. simpl. rewrite Hlen. reflexivity.
Qed.

(** C1.  The pass is not total on instances: an integer in a field declared
    [string] with a [minLength] makes [len(field_value)] raise [TypeError],
    and the exception leaves [validate_field_types] and
    [validate_organization] with no result at all, the type error already
    appended included.  The format checks raise likewise on a value that is
    not a [str] ([AttributeError] from [value.lower()], [TypeError] from
    ['@' not in field_value]), and the range check on a [str] compared with
    a number. *)
Theorem pass_raises_on_unsupported_value :
  forall str_other : value -> string,
    validate_field_types str_other [("name", VInt 5)]
      (schema_of_field "name" [("type", VStr "string"); ("minLength", VInt 1)])
    = Raise TypeError
    /\ validate_organization str_other [("name", VInt 5)]
         (contract_of
            (schema_of_field "name" [("type", VStr "string"); ("minLength", VInt 1)]))
       = Raise TypeError
    /\ validate_field_types str_other [("external_id", VInt 5)]
         (schema_of_field "external_id" [("type", VStr "string"); ("format", VStr "uuid")])
       = Raise AttributeError
    /\ validate_field_types str_other [("contact", VNone)]
         (schema_of_field "contact" [("type", VStr "string"); ("format", VStr "email")])
       = Raise TypeError
    /\ validate_field_types str_other [("size", VStr "big")]
         (schema_of_field "size" [("type", VStr "integer"); ("minimum", VInt 0)])
       = Raise TypeError.
Proof. intros str_other. repeat split; reflexivity. Qed.

(** The two errors of a field that fails its type check and its enum check
    stand side by side whenever the three later checks return. *)
Lemma type_and_enum_errors_add_up str_other properties field_name field_value
    field_schema expected_type type_error enum_error from_format from_length from_range :
  py_in (VStr field_name) properties = Ok true ->
  py_getitem properties field_name = Ok field_schema ->
  py_get field_schema "type" VNone = Ok expected_type ->
  check_type expected_type field_name field_value [] = [type_error] ->
  check_enum str_other field_schema field_name field_value [] = Ok [enum_error] ->
  check_format field_schema field_name field_value [] = Ok from_format ->
  check_length str_other expected_type field_schema field_name field_value []
    = Ok from_length ->
  check_range str_other expected_type field_schema field_name field_value []
    = Ok from_range ->
  forall errors,
    validate_field str_other properties field_name field_value errors
    = Ok (errors ++ type_error :: enum_error :: from_format ++ from_length ++ from_range).
Proof.
  intros Hin Hitem Htype Ht He Hf Hl Hr errors.
  unfold validate_field.
  rewrite Hin. cbn [bind negb]. rewrite Hitem. cbn [bind]. rewrite Htype. cbn [bind].
  rewrite checks_in_order. unfold field_checks.
  rewrite Ht, He, Hf, Hl, Hr. reflexivity.
Qed.

(** C7.  A field whose value fails both its type check and its enum check
    gets both errors when its schema has no further constraint, but none
    when a further constraint of the schema makes a later check raise: with
    a [maxLength] next to the [enum], an integer in a field declared
    [string] ends the pass with [TypeError] instead of the two errors. *)
Theorem type_and_enum_errors_lost_on_raise :
  forall str_other : value -> string,
    validate_field_types str_other [("category", VInt 5)]
      (schema_of_field "category"
         [("type", VStr "string"); ("enum", VList [VStr "vendor"; VStr "partner"]);
          ("maxLength", VInt 20)])
    = Raise TypeError
    /\ validate_field_types str_other [("category", VInt 5)]
         (schema_of_field "category"
            [("type", VStr "string"); ("enum", VList [VStr "vendor"; VStr "partner"])])
       = Ok (false,
             ["Field 'category' must be string, got int";
              ("Field 'category' value '5' not in allowed values: "
               ++ str_other (VList [VStr "vendor"; VStr "partner"]))%string]).
Proof. intros str_other. split; reflexivity. Qed.

(** ** The integer check and booleans *)

(** C2, as the code has it.  [isinstance(field_value, int)] holds of a
    [bool], so a boolean in a field declared [integer] gets no type error;
    the error "Field '<name>' must be integer, got <type-name>" is appended
    exactly for the values that are neither [int] nor [bool]. *)
Theorem integer_check_admits_bool :
  forall (str_other : value -> string) (field_name : string) (field_value : value)
         (errors : list string),
    match field_value with
    | VInt _ | VBool _ =>
        check_type (VStr "integer") field_name field_value errors = errors
    | _ =>
        check_type (VStr "integer") field_name field_value errors
        = errors ++ [("Field '" ++ field_name ++ "' must be integer, got "
                      ++ type_name field_value)%string]
    end
    /\ (forall b : bool,
          validate_field_types str_other [(field_name, VBool b)]
            (schema_of_field field_name [("type", VStr "integer")])
          = Ok (true, [])).
Proof.
  intros str_other field_name field_value errors. split.
  - destruct field_value; reflexivity.
  - intros b.
    assert (Hturn : validate_field str_other
              (VDict [(field_name, VDict [("type", VStr "integer")])])
              field_name (VBool b) [] = Ok []).
    { unfold validate_field, py_in, py_getitem, has_key, lookup. simpl.
      rewrite String.eqb_refl. reflexivity. }
    unfold validate_field_types, schema_of_field. simpl.
    rewrite Hturn. reflexivity.
Qed.

(** C2 as stated fails: a boolean in a field declared [integer] passes the
    whole evaluator with no error. *)
Lemma boolean_gets_no_integer_error :
  exists errors,
    validate_field_types tag_text [("employees", VBool true)]
      (schema_of_field "employees" [("type", VStr "integer")])
    = Ok (true, errors)
    /\ ~ In "Field 'employees' must be integer, got bool" errors.
Proof. exists []. split; [reflexivity|]. intros []. Qed.

(** ** The format check and the declared type *)

(** C3, as the code has it.  The format check runs whenever the field
    schema has a [format], whatever its [type] entry is (or none): a string
    that fails the format [uuid], [email] or [uri] gets
    "Field '<name>' is not a valid UUID" / "email" / "URI" appended by the
    check, and the error is in the result of the field's turn whenever the
    later checks return. *)
Theorem format_checked_for_any_declared_type :
  forall (str_other : value -> string) (properties field_schema : dict)
         (field_name s format_type kind : string) (errors : list string),
    lookup field_name properties = Some (VDict field_schema) ->
    lookup "format" field_schema = Some (VStr format_type) ->
    (format_type = "uuid" /\ uuid_pattern (lower s) = false /\ kind = "UUID")
    \/ (format_type = "email" /\ is_substring "@" s = false /\ kind = "email")
    \/ (format_type = "uri"
        /\ String.prefix "http://" s || String.prefix "https://" s = false
        /\ kind = "URI") ->
    check_format (VDict field_schema) field_name (VStr s) errors
    = Ok (errors ++ [("Field '" ++ field_name ++ "' is not a valid " ++ kind)%string])
    /\ (forall final,
          validate_field str_other (VDict properties) field_name (VStr s) errors
          = Ok final ->
          In ("Field '" ++ field_name ++ "' is not a valid " ++ kind)%string final).
Proof.
  intros str_other properties field_schema field_name s format_type kind errors
    Hfield Hformat Hfails.
  assert (Hcheck : forall errors,
    check_format (VDict field_schema) field_name (VStr s) errors
    = Ok (errors ++ [("Field '" ++ field_name ++ "' is not a valid " ++ kind)%string])).
  { intros errors'. unfold check_format. simpl.
    rewrite (has_key_lookup _ _ _ Hformat), Hformat. simpl.
    destruct Hfails as [[-> [Hbad ->]]|[[-> [Hbad ->]]|[-> [Hbad ->]]]];
      simpl; rewrite Hbad; reflexivity. }
  split; [apply Hcheck|].
  intros final Hfinal. unfold validate_field in Hfinal. simpl in Hfinal.
  rewrite (has_key_lookup _ _ _ Hfield), Hfield in Hfinal. simpl in Hfinal.
  rewrite checks_in_order in Hfinal. unfold field_checks in Hfinal.
  rewrite Hcheck in Hfinal.
  destruct (check_enum _ _ _ _ _) as [from_enum|x]; [|discriminate].
  simpl in Hfinal.
  destruct (check_length _ _ _ _ _ _) as [from_length|x]; [|discriminate].
  simpl in Hfinal.
  destruct (check_range _ _ _ _ _ _) as [from_range|x]; [|discriminate].
  simpl in Hfinal. injection Hfinal as <-.
  apply in_or_app. right. apply in_or_app. right. apply in_or_app. right.
  left. reflexivity.
Qed.

Lemma format_checked_for_any_declared_type_witness :
  (check_format (VDict [("type", VStr "integer"); ("format", VStr "uri")])
     "homepage" (VStr "ftp://host") []
   = Ok ["Field 'homepage' is not a valid URI"]
   /\ (forall final,
         validate_field tag_text
           (VDict [("homepage", VDict [("type", VStr "integer"); ("format", VStr "uri")])])
           "homepage" (VStr "ftp://host") []
         = Ok final ->
         In "Field 'homepage' is not a valid URI" final))
  /\ validate_field tag_text
       (VDict [("homepage", VDict [("type", VStr "integer"); ("format", VStr "uri")])])
       "homepage" (VStr "ftp://host") []
     = Ok ["Field 'homepage' must be integer, got str";
           "Field 'homepage' is not a valid URI"].
Proof.
  split; [|reflexivity].
  exact (format_checked_for_any_declared_type tag_text
    [("homepage", VDict [("type", VStr "integer"); ("format", VStr "uri")])]
    [("type", VStr "integer"); ("format", VStr "uri")]
    "homepage" "ftp://host" "uri" "URI" []
    eq_refl eq_refl
    (or_intror (or_intror (conj eq_refl (conj eq_refl eq_refl))))).
Defined.

(** C3 as stated fails: a field declared [integer] with format [uuid] gets a
    format error next to its type error. *)
Lemma format_error_without_string_type :
  exists errors,
    validate_field_types tag_text [("external_id", VStr "bad-uuid")]
      (schema_of_field "external_id" [("type", VStr "integer"); ("format", VStr "uuid")])
    = Ok (false, errors)
    /\ In "Field 'external_id' is not a valid UUID" errors.
Proof.
  exists ["Field 'external_id' must be integer, got str";
          "Field 'external_id' is not a valid UUID"].
  split; [reflexivity|]. right. left. reflexivity.
Qed.

(** ** Schema resolution *)

(** C9, as the code has it.  The schema is always the one named
    "Organization".  Resolution raises [KeyError] for the first of the keys
    [components], [schemas], [Organization] that is missing, and [TypeError]
    when [components] or [schemas] is not a mapping; otherwise it returns
    [components.schemas.Organization].  When resolution raises,
    [validate_organization] raises the same exception for every instance:
    no other schema is tried and no evaluator runs. *)
Theorem organization_schema_resolution :
  forall (spec : dict),
    organization_schema spec
    = match lookup "components" spec with
      | None => Raise (KeyError "components")
      | Some (VDict components) =>
          match lookup "schemas" components with
          | None => Raise (KeyError "schemas")
          | Some (VDict schemas) =>
              match lookup "Organization" schemas with
              | None => Raise (KeyError "Organization")
              | Some schema => Ok schema
              end
          | Some _ => Raise TypeError
          end
      | Some _ => Raise TypeError
      end
    /\ (forall (str_other : value -> string) (data : dict),
          validate_organization str_other data spec
          = match organization_schema spec with
            | Raise e => Raise e
            | Ok schema =>
                required <- validate_required_fields str_other data schema ;;
                typed <- validate_field_types str_other data schema ;;
                let errors := snd required ++ snd typed in
                Ok (is_empty errors, errors)
            end).
Proof.
  intros spec. split.
  - unfold organization_schema. simpl.
    destruct (lookup "components" spec) as [components|]; [|reflexivity].
    destruct components; try reflexivity. simpl.
    destruct (lookup "schemas" d) as [schemas|]; [|reflexivity].
    destruct schemas; reflexivity.
  - intros str_other data. unfold validate_organization.
    destruct (organization_schema spec); reflexivity.
Qed.

(** C9 as stated fails: with no [Organization] under [components.schemas]
    the exception is the built-in [KeyError]. *)
Lemma missing_schema_raises_key_error :
  exists e,
    validate_organization tag_text [("name", VStr "Acme")]
      [("components", VDict [("schemas", VDict [("Person", VDict [])])])]
    = Raise e
    /\ exn_name e <> "SchemaNotFoundError".
Proof. exists (KeyError "Organization"). split; [reflexivity|discriminate]. Qed.

(** ** Values of the declared shape never raise *)

Section Supported.
Variable str_other : value -> string.


Lemma number_of_bound (key : string) (field_schema : dict) (bound : value) :
  bound_is_number key field_schema = true ->
  lookup key field_schema = Some bound -> exists y, num_of bound = Some y.
Proof.
  unfold bound_is_number. intros H Hbound. rewrite Hbound in H.
  destruct (num_of bound) as [y|]; [exists y; reflexivity|discriminate].
Qed.








End Supported.

(** ** The scenarios of the contract's examples *)

Example uuid_cases :
  is_valid_uuid (VStr "not-a-uuid") = Ok false
  /\ is_valid_uuid (VStr "123e4567-e89b-12d3-a456-426614174000") = Ok true
  /\ is_valid_uuid (VStr "123E4567-E89B-12D3-A456-426614174000") = Ok true
  /\ is_valid_uuid (VStr "123e4567e89b12d3a456426614174000") = Ok false
  /\ is_valid_uuid (VInt 7) = Raise AttributeError.
Proof. repeat split; reflexivity. Qed.

Example email_and_uri_cases :
  check_format (VDict [("format", VStr "email")]) "contact" (VStr "a@b") [] = Ok []
  /\ check_format (VDict [("format", VStr "email")]) "contact" (VStr "ab") []
     = Ok ["Field 'contact' is not a valid email"]
  /\ check_format (VDict [("format", VStr "uri")]) "site" (VStr "ftp://host") []
     = Ok ["Field 'site' is not a valid URI"]
  /\ check_format (VDict [("format", VStr "uri")]) "site" (VStr "https://host") []
     = Ok [].
Proof. repeat split; reflexivity. Qed.

Example organization_scenario (str_other : value -> string) :
  let schema :=
    VDict [("required", VList [VStr "external_id"; VStr "name"; VStr "category"]);
           ("properties", VDict [
              ("external_id", VDict [("type", VStr "string"); ("format", VStr "uuid")]);
              ("name", VDict [("type", VStr "string"); ("minLength", VInt 1);
                              ("maxLength", VInt 255)]);
              ("category", VDict [("type", VStr "string");
                                  ("enum", VList [VStr "vendor"; VStr "partner"])]);
              ("partnership_status",
               VDict [("type", VStr "string");
                      ("enum", VList [VStr "active"; VStr "inactive"])])])] in
  validate_organization str_other
    [("external_id", VStr "bad-uuid"); ("name", VStr ""); ("category", VStr "unknown")]
    (contract_of schema)
  = Ok (false,
        ["Field 'external_id' is not a valid UUID";
         "Field 'name' too short (min: 1)";
         ("Field 'category' value 'unknown' not in allowed values: "
          ++ str_other (VList [VStr "vendor"; VStr "partner"]))%string])
  /\ validate_organization str_other
       [("external_id", VStr "123e4567-e89b-12d3-a456-426614174000");
        ("name", VStr "Acme"); ("category", VStr "vendor")]
       (contract_of schema)
     = Ok (true, [])
  /\ validate_organization str_other [("name", VStr "Acme"); ("rank", VInt 1)]
       (contract_of schema)
     = Ok (false,
           ["Missing required field: external_id";
            "Missing required field: category";
            "Unknown field: rank"]).
Proof. repeat split; reflexivity. Qed.

(** ** The shape [is_valid_uuid] accepts *)

Lemma lower_char_hex (c : ascii) : is_hex_lower (lower_char c) = is_hex_digit c.
Proof. destruct c as [[] [] [] [] [] [] [] []]; reflexivity. Qed.

Lemma lower_char_hyphen (c : ascii) :
  Ascii.eqb (lower_char c) "-"%char = Ascii.eqb c "-"%char.
Proof. destruct c as [[] [] [] [] [] [] [] []]; reflexivity. Qed.

Lemma lower_char_newline (c : ascii) :
  Ascii.eqb (lower_char c) (ascii_of_nat 10) = Ascii.eqb c (ascii_of_nat 10).
Proof. destruct c as [[] [] [] [] [] [] [] []]; reflexivity. Qed.

Lemma lower_char_idempotent (c : ascii) : lower_char (lower_char c) = lower_char c.
Proof. destruct c as [[] [] [] [] [] [] [] []]; reflexivity. Qed.

Lemma lower_idempotent (s : string) : lower (lower s) = lower s.
Proof.
  induction s as [|c s IH]; simpl; [reflexivity|].
  rewrite lower_char_idempotent, IH. reflexivity.
Qed.

Lemma hex_run_lower (n : nat) (s r : string) :
  hex_run n (lower s) = Some r <->
  exists pre rest, s = (pre ++ rest)%string /\ hex_group n pre /\ r = lower rest.
Proof.
  revert s. induction n as [|n IH]; intros s; simpl.
  - split.
    + intros H. injection H as <-. exists EmptyString, s.
      repeat split; reflexivity.
    + intros [pre [rest [-> [[Hlen _] ->]]]].
      destruct pre; [reflexivity|discriminate].
  - destruct s as [|c s]; simpl.
    + split; [discriminate|].
      intros [pre [rest [Hs [[Hlen _] _]]]].
      destruct pre; discriminate.
    + rewrite lower_char_hex. split.
      * destruct (is_hex_digit c) eqn:Hc; [|discriminate].
        intros H. apply IH in H as [pre [rest [-> [[Hlen Hall] ->]]]].
        exists (String c pre), rest. repeat split; simpl.
        -- rewrite Hlen. reflexivity.
        -- rewrite Hc, Hall. reflexivity.
      * intros [pre [rest [Hs [[Hlen Hall] ->]]]].
        destruct pre as [|c' pre]; [discriminate|].
        simpl in Hs, Hlen, Hall. injection Hs as <- ->. injection Hlen as Hlen.
        apply andb_prop in Hall as [Hc Hall]. rewrite Hc.
        apply IH. exists pre, rest. repeat split; assumption.
Qed.

Lemma hyphen_lower (s r : string) :
  hyphen (lower s) = Some r <-> exists rest, s = String "-" rest /\ r = lower rest.
Proof.
  destruct s as [|c s]; simpl.
  - split; [discriminate|]. intros [rest [H _]]. discriminate.
  - rewrite lower_char_hyphen. split.
    + destruct (Ascii.eqb c "-") eqn:Hc; [|discriminate].
      apply Ascii.eqb_eq in Hc. subst c. intros H. injection H as <-.
      exists s. split; reflexivity.
    + intros [rest [H ->]]. injection H as -> ->. reflexivity.
Qed.

Lemma at_end_lower (s : string) :
  at_end (lower s) = true <-> s = EmptyString \/ s = newline.
Proof.
  destruct s as [|c [|c' s]]; simpl.
  - split; [left; reflexivity|reflexivity].
  - rewrite lower_char_newline. split.
    + intros H. apply Ascii.eqb_eq in H. subst c. right. reflexivity.
    + intros [H|H]; [discriminate|]. injection H as ->. reflexivity.
  - split; [discriminate|]. intros [H|H]; discriminate.
Qed.

Lemma and_then_some {A B : Type} (o : option A) (k : A -> option B) (b : B) :
  and_then o k = Some b <-> exists a, o = Some a /\ k a = Some b.
Proof.
  destruct o as [a|]; simpl.
  - split; [intros H; exists a; split; [reflexivity|exact H]|].
    intros [a' [H Hk]]. injection H as ->. exact Hk.
  - split; [discriminate|]. intros [a' [H _]]. discriminate.
Qed.

(** X1.  [is_valid_uuid] answers true on exactly the strings made of 8, 4,
    4, 4 and 12 hexadecimal digits (upper or lower case) separated by
    hyphens, optionally followed by one newline, which [$] lets through. *)
Theorem is_valid_uuid_shape :
  forall s : string, is_valid_uuid (VStr s) = Ok true <-> uuid_shape s.
Proof.
  intros s. unfold is_valid_uuid, uuid_shape.
  split.
  - intros H. injection H as H. unfold uuid_pattern in H.
    match type of H with
    | match ?m with _ => _ end = _ => destruct m as [r|] eqn:Hm; [|discriminate]
    end.
    apply and_then_some in Hm as [r1 [H1 Hm]].
    apply hex_run_lower in H1 as [a [s1 [-> [Ha ->]]]].
    apply and_then_some in Hm as [r2 [H2 Hm]].
    apply hyphen_lower in H2 as [s2 [-> ->]].
    apply and_then_some in Hm as [r3 [H3 Hm]].
    apply hex_run_lower in H3 as [b [s3 [-> [Hb ->]]]].
    apply and_then_some in Hm as [r4 [H4 Hm]].
    apply hyphen_lower in H4 as [s4 [-> ->]].
    apply and_then_some in Hm as [r5 [H5 Hm]].
    apply hex_run_lower in H5 as [c [s5 [-> [Hc ->]]]].
    apply and_then_some in Hm as [r6 [H6 Hm]].
    apply hyphen_lower in H6 as [s6 [-> ->]].
    apply and_then_some in Hm as [r7 [H7 Hm]].
    apply hex_run_lower in H7 as [d [s7 [-> [Hd ->]]]].
    apply and_then_some in Hm as [r8 [H8 Hm]].
    apply hyphen_lower in H8 as [s8 [-> ->]].
    apply hex_run_lower in Hm as [e [tail [-> [He ->]]]].
    apply at_end_lower in H.
    exists a, b, c, d, e, tail. repeat split; try assumption;
      try apply Ha; try apply Hb; try apply Hc; try apply Hd; try apply He.
  - intros [a [b [c [d [e [tail [-> [Ha [Hb [Hc [Hd [He Htail]]]]]]]]]]]].
    assert (Hm : and_then (hex_run 8 (lower (a ++ "-" ++ b ++ "-" ++ c ++ "-" ++ d
                                               ++ "-" ++ e ++ tail)%string))
      (fun s => and_then (hyphen s) (fun s => and_then (hex_run 4 s) (fun s =>
       and_then (hyphen s) (fun s => and_then (hex_run 4 s) (fun s =>
       and_then (hyphen s) (fun s => and_then (hex_run 4 s) (fun s =>
       and_then (hyphen s) (fun s => hex_run 12 s))))))))
      = Some (lower tail)).
    { apply and_then_some. eexists. split.
      { apply hex_run_lower. exists a. eexists. repeat split; apply Ha. }
      apply and_then_some. eexists. split.
      { apply hyphen_lower. eexists. split; reflexivity. }
      apply and_then_some. eexists. split.
      { apply hex_run_lower. exists b. eexists. repeat split; apply Hb. }
      apply and_then_some. eexists. split.
      { apply hyphen_lower. eexists. split; reflexivity. }
      apply and_then_some. eexists. split.
      { apply hex_run_lower. exists c. eexists. repeat split; apply Hc. }
      apply and_then_some. eexists. split.
      { apply hyphen_lower. eexists. split; reflexivity. }
      apply and_then_some. eexists. split.
      { apply hex_run_lower. exists d. eexists. repeat split; apply Hd. }
      apply and_then_some. eexists. split.
      { apply hyphen_lower. eexists. split; reflexivity. }
      apply hex_run_lower. exists e, tail. repeat split; apply He. }
    unfold uuid_pattern. rewrite Hm. f_equal. apply at_end_lower. exact Htail.
Qed.

(** ** Comparisons with a string literal *)

Lemma py_eq_literal (a : value) (t : string) :
  py_eq a (VStr t) = true <-> a = VStr t.
Proof.
  split.
  - destruct a; simpl; try discriminate.
    intros H. apply String.eqb_eq in H. subst. reflexivity.
  - intros ->. simpl. apply String.eqb_refl.
Qed.

Lemma py_eq_other_literal (a : value) (t : string) :
  a <> VStr t -> py_eq a (VStr t) = false.
Proof.
  intros H. destruct (py_eq a (VStr t)) eqn:E; [|reflexivity].
  apply py_eq_literal in E. contradiction.
Qed.

(** ** Declared types and formats the code does not know *)

(** X2.  A field whose declared [type] is none of "string", "integer",
    "number", "array", "object" (another name such as "boolean", a value
    that is no string, or no [type] at all, read as [None]) gets no type
    error, no length check and no range check, whatever its value. *)
Theorem unknown_type_is_unchecked :
  forall (str_other : value -> string) (expected_type field_schema : value)
         (field_name : string) (field_value : value) (errors : list string),
    expected_type <> VStr "string" -> expected_type <> VStr "integer" ->
    expected_type <> VStr "number" -> expected_type <> VStr "array" ->
    expected_type <> VStr "object" ->
    check_type expected_type field_name field_value errors = errors
    /\ check_length str_other expected_type field_schema field_name field_value errors
       = Ok errors
    /\ check_range str_other expected_type field_schema field_name field_value errors
       = Ok errors.
Proof.
  intros str_other expected_type field_schema field_name field_value errors
    Hs Hi Hn Ha Ho.
  unfold check_type, check_length, check_range.
  rewrite (py_eq_other_literal _ _ Hs), (py_eq_other_literal _ _ Hi),
    (py_eq_other_literal _ _ Hn), (py_eq_other_literal _ _ Ha),
    (py_eq_other_literal _ _ Ho).
  repeat split; reflexivity.
Qed.

Lemma unknown_type_is_unchecked_witness :
  check_type (VStr "boolean") "active" (VStr "yes") [] = []
  /\ check_length tag_text (VStr "boolean") (VDict [("minLength", VInt 9)])
       "active" (VStr "yes") []
     = Ok []
  /\ check_range tag_text (VStr "boolean") (VDict [("minimum", VInt 9)])
       "active" (VInt 1) []
     = Ok [].
Proof.
  split; [|split].
  - exact (proj1 (unknown_type_is_unchecked tag_text (VStr "boolean") VNone
      "active" (VStr "yes") []
      ltac:(discriminate) ltac:(discriminate) ltac:(discriminate)
      ltac:(discriminate) ltac:(discriminate))).
  - reflexivity.
  - reflexivity.
Defined.

(** X3.  A [format] other than "uuid", "email" and "uri" is ignored: the
    format check returns the errors unchanged and does not look at the
    value, so it cannot raise on a value that is no string. *)
Theorem unknown_format_is_ignored :
  forall (field_schema : dict) (format_type : value) (field_name : string)
         (field_value : value) (errors : list string),
    lookup "format" field_schema = Some format_type ->
    format_type <> VStr "uuid" -> format_type <> VStr "email" ->
    format_type <> VStr "uri" ->
    check_format (VDict field_schema) field_name field_value errors = Ok errors.
Proof.
  intros field_schema format_type field_name field_value errors Hformat Hu He Hr.
  unfold check_format. simpl.
  rewrite (has_key_lookup _ _ _ Hformat), Hformat. simpl.
  rewrite (py_eq_other_literal _ _ Hu), (py_eq_other_literal _ _ He),
    (py_eq_other_literal _ _ Hr).
  reflexivity.
Qed.

Lemma unknown_format_is_ignored_witness :
  check_format (VDict [("type", VStr "string"); ("format", VStr "date-time")])
    "created_at" (VInt 1700000000) ["earlier"]
  = Ok ["earlier"].
Proof.
  exact (unknown_format_is_ignored
    [("type", VStr "string"); ("format", VStr "date-time")] (VStr "date-time")
    "created_at" (VInt 1700000000) ["earlier"] eq_refl
    ltac:(discriminate) ltac:(discriminate) ltac:(discriminate)).
Defined.

(** ** The email and URI formats on strings *)

Lemma contains_at_sign (s : string) :
  is_substring "@" s = true <-> In "@"%char (list_ascii_of_string s).
Proof.
  induction s as [|c s IH]; cbn [is_substring String.prefix list_ascii_of_string In].
  - split; [intros H; discriminate H|intros []].
  - destruct (ascii_dec "@" c) as [<-|Hc].
    + split; [intros _; left; reflexivity|]. intros _. destruct s; reflexivity.
    + cbn [orb]. rewrite IH. split; [intros H; right; exact H|].
      intros [H|H]; [symmetry in H; contradiction|exact H].
Qed.

Lemma prefix_append (p s : string) :
  String.prefix p s = true <-> exists rest, s = (p ++ rest)%string.
Proof.
  revert s. induction p as [|a p IH]; intros s; cbn [String.prefix String.append].
  - split; [intros _; exists s; reflexivity|]. intros _. destruct s; reflexivity.
  - destruct s as [|b s].
    + split; [intros H; discriminate H|]. intros [rest H]. discriminate H.
    + cbn [String.prefix]. destruct (ascii_dec a b) as [<-|Hab].
      * rewrite IH. split; intros [rest H]; exists rest.
        -- rewrite H. reflexivity.
        -- injection H as H. exact H.
      * split; [intros H; discriminate H|]. intros [rest H].
        injection H as H _.
        symmetry in H. contradiction.
Qed.

(** X4.  On a string, the "email" format passes exactly when the string
    contains the character [@], and the "uri" format passes exactly when
    the string starts with "http://" or "https://"; otherwise the check
    appends "Field '<name>' is not a valid email" / "URI". *)
Theorem email_and_uri_formats :
  forall (field_schema : dict) (field_name s : string) (errors : list string),
    (lookup "format" field_schema = Some (VStr "email") ->
     (In "@"%char (list_ascii_of_string s) ->
      check_format (VDict field_schema) field_name (VStr s) errors = Ok errors)
     /\ (~ In "@"%char (list_ascii_of_string s) ->
         check_format (VDict field_schema) field_name (VStr s) errors
         = Ok (errors ++ [("Field '" ++ field_name ++ "' is not a valid email")%string])))
    /\ (lookup "format" field_schema = Some (VStr "uri") ->
        ((exists rest, s = ("http://" ++ rest)%string \/ s = ("https://" ++ rest)%string) ->
         check_format (VDict field_schema) field_name (VStr s) errors = Ok errors)
        /\ (~ (exists rest, s = ("http://" ++ rest)%string
                            \/ s = ("https://" ++ rest)%string) ->
            check_format (VDict field_schema) field_name (VStr s) errors
            = Ok (errors ++ [("Field '" ++ field_name ++ "' is not a valid URI")%string]))).
Proof.
  intros field_schema field_name s errors. split; intros Hformat.
  - assert (Hcheck : check_format (VDict field_schema) field_name (VStr s) errors
      = Ok (if is_substring "@" s then errors
            else errors ++ [not_valid field_name "email"])).
    { unfold check_format. simpl.
      rewrite (has_key_lookup _ _ _ Hformat), Hformat. simpl.
      destruct (is_substring "@" s); reflexivity. }
    rewrite Hcheck. split; intros H.
    + apply contains_at_sign in H. rewrite H. reflexivity.
    + destruct (is_substring "@" s) eqn:E; [|reflexivity].
      apply contains_at_sign in E. contradiction.
  - assert (Hcheck : check_format (VDict field_schema) field_name (VStr s) errors
      = Ok (if String.prefix "http://" s || String.prefix "https://" s then errors
            else errors ++ [not_valid field_name "URI"])).
    { unfold check_format. simpl.
      rewrite (has_key_lookup _ _ _ Hformat), Hformat.
      cbn [bind and_also py_eq String.eqb Ascii.eqb Bool.eqb py_startswith_http negb].
      destruct (String.prefix "http://" s || String.prefix "https://" s); reflexivity. }
    rewrite Hcheck. split; intros H.
    + replace (String.prefix "http://" s || String.prefix "https://" s) with true;
        [reflexivity|].
      symmetry. apply orb_true_iff.
      destruct H as [rest [H|H]]; [left|right]; apply prefix_append; exists rest; exact H.
    + destruct (String.prefix "http://" s || String.prefix "https://" s) eqn:E;
        [|reflexivity].
      exfalso. apply H. apply orb_true_iff in E as [E|E];
        apply prefix_append in E as [rest E]; exists rest; [left|right]; exact E.
Qed.

Lemma email_and_uri_formats_witness :
  check_format (VDict [("type", VStr "string"); ("format", VStr "email")])
    "contact" (VStr "a@b") []
  = Ok []
  /\ check_format (VDict [("type", VStr "string"); ("format", VStr "uri")])
       "site" (VStr "https://host") []
     = Ok [].
Proof.
  split.
  - exact (proj1 (proj1 (email_and_uri_formats
      [("type", VStr "string"); ("format", VStr "email")] "contact" "a@b" [])
      eq_refl) (or_intror (or_introl eq_refl))).
  - exact (proj1 (proj2 (email_and_uri_formats
      [("type", VStr "string"); ("format", VStr "uri")] "site" "https://host" [])
      eq_refl) (ex_intro _ "host" (or_intror eq_refl))).
Defined.

(** ** More on the required-field evaluator *)

Lemma no_missing_names (data : dict) (names : list string) :
  filter (fun name => negb (has_key name data)) names = [] <->
  (forall name, In name names -> has_key name data = true).
Proof.
  induction names as [|name names IH]; simpl.
  - split; [intros _ name []|reflexivity].
  - destruct (has_key name data) eqn:Hkey; simpl.
    + rewrite IH. split.
      * intros H other [<-|Hin]; [exact Hkey|apply H, Hin].
      * intros H other Hin. apply H. right. exact Hin.
    + split; [discriminate|]. intros H.
      rewrite (H name (or_introl eq_refl)) in Hkey. discriminate.
Qed.

(** X5.  With a [required] list of names, [validate_required_fields]
    returns [(True, [])] exactly when every name of the list is a key of
    the instance; and its result only depends on which of those names are
    keys, not on the values, the other keys or the order of the instance. *)
Theorem required_verdict_is_presence :
  forall (str_other : value -> string) (data : dict) (schema : value)
         (names : list string),
    py_get schema "required" (VList []) = Ok (VList (map VStr names)) ->
    (validate_required_fields str_other data schema = Ok (true, [])
     <-> (forall name, In name names -> has_key name data = true))
    /\ (forall data' : dict,
          (forall name, In name names -> has_key name data' = has_key name data) ->
          validate_required_fields str_other data' schema
          = validate_required_fields str_other data schema).
Proof.
  intros str_other data schema names Hreq.
  assert (Hrun : forall d,
    validate_required_fields str_other d schema
    = Ok (is_empty (map (fun name => missing_required str_other (VStr name))
                      (filter (fun name => negb (has_key name d)) names)),
          map (fun name => missing_required str_other (VStr name))
            (filter (fun name => negb (has_key name d)) names))).
  { intros d. unfold validate_required_fields. rewrite Hreq. simpl.
    rewrite required_loop_names. reflexivity. }
  split.
  - rewrite Hrun, <- no_missing_names. split.
    + intros H. injection H as _ H.
      destruct (filter _ names); [reflexivity|discriminate].
    + intros ->. reflexivity.
  - intros data' Hsame. rewrite !Hrun.
    replace (filter (fun name => negb (has_key name data')) names)
      with (filter (fun name => negb (has_key name data)) names); [reflexivity|].
    apply filter_ext_in. intros name Hin. rewrite (Hsame name Hin). reflexivity.
Qed.

Lemma required_verdict_is_presence_witness :
  validate_required_fields tag_text
    [("category", VNone); ("extra", VInt 0); ("name", VStr "")]
    (VDict [("required", VList (map VStr ["name"; "category"]))])
  = Ok (true, []).
Proof.
  apply (proj2 (proj1 (required_verdict_is_presence tag_text
    [("category", VNone); ("extra", VInt 0); ("name", VStr "")]
    (VDict [("required", VList (map VStr ["name"; "category"]))])
    ["name"; "category"] eq_refl))).
  intros name [<-|[<-|[]]]; reflexivity.
Defined.

(** ** Instances without a declared field *)

Section Undeclared.
Variable str_other : value -> string.

Lemma fields_loop_undeclared (properties data : dict) (errors : list string) :
  (forall name, In name (map fst data) -> has_key name properties = false) ->
  fields_loop str_other (VDict properties) data errors
  = Ok (errors ++ map unknown_field (map fst data)).
Proof.
  revert errors. induction data as [|[name v] data IH]; intros errors Hnew; simpl.
  - rewrite app_nil_r. reflexivity.
  - unfold validate_field at 1. simpl.
    rewrite (Hnew name (or_introl eq_refl)). simpl.
    rewrite IH; [|intros other Hin; apply Hnew; right; exact Hin].
    rewrite <- app_assoc. reflexivity.
Qed.

End Undeclared.

(** X6.  When no key of the instance is a key of [properties] (in
    particular when the schema has no [properties] at all), the per-field
    evaluator never raises and returns one "Unknown field: <name>" per key
    of the instance, in instance order; it is valid only on the empty
    instance. *)
Theorem undeclared_instance_all_unknown :
  forall (str_other : value -> string) (data : dict) (schema : value)
         (properties : dict),
    py_get schema "properties" (VDict []) = Ok (VDict properties) ->
    (forall name, In name (map fst data) -> has_key name properties = false) ->
    validate_field_types str_other data schema
    = Ok (is_empty data,
          map (fun name => ("Unknown field: " ++ name)%string) (map fst data)).
Proof.
  intros str_other data schema properties Hprops Hnew.
  unfold validate_field_types. rewrite Hprops. simpl.
  rewrite (fields_loop_undeclared str_other properties data [] Hnew). simpl.
  destruct data; reflexivity.
Qed.

Lemma undeclared_instance_all_unknown_witness :
  validate_field_types tag_text [("b", VNone); ("a", VList [])]
    (VDict [("required", VList [])])
  = Ok (false, ["Unknown field: b"; "Unknown field: a"]).
Proof.
  exact (undeclared_instance_all_unknown tag_text [("b", VNone); ("a", VList [])]
    (VDict [("required", VList [])]) [] eq_refl (fun name _ => eq_refl)).
Defined.

(** ** The empty instance *)

(** X7.  On the empty instance the orchestrator returns one "Missing
    required field: <name>" for every name of the schema's [required] list,
    in order, and nothing else: no property of the schema is looked at. *)
Theorem empty_instance_misses_everything :
  forall (str_other : value -> string) (spec : dict) (schema : value)
         (names : list string),
    organization_schema spec = Ok schema ->
    py_get schema "required" (VList []) = Ok (VList (map VStr names)) ->
    validate_organization str_other [] spec
    = Ok (is_empty names,
          map (fun name => ("Missing required field: " ++ name)%string) names).
Proof.
  intros str_other spec schema names Hschema Hreq.
  assert (Hall : filter (fun name => negb (has_key name [])) names = names).
  { clear Hreq. induction names as [|name names IH]; simpl; [reflexivity|].
    f_equal. exact IH. }
  assert (Hrequired : validate_required_fields str_other [] schema
    = Ok (is_empty names,
          map (fun name => ("Missing required field: " ++ name)%string) names)).
  { unfold validate_required_fields. rewrite Hreq. cbn [bind py_iter].
    rewrite required_loop_names, Hall. cbn [bind app].
    destruct names; reflexivity. }
  unfold validate_organization. rewrite Hschema. cbn [bind].
  rewrite Hrequired. cbn [bind snd app].
  destruct schema; try discriminate.
  unfold validate_field_types. simpl. rewrite app_nil_r.
  destruct names; reflexivity.
Qed.

Lemma empty_instance_misses_everything_witness :
  validate_organization tag_text []
    (contract_of (VDict [("required", VList (map VStr ["external_id"; "name"]));
                         ("properties", VInt 3)]))
  = Ok (false, ["Missing required field: external_id"; "Missing required field: name"]).
Proof.
  exact (empty_instance_misses_everything tag_text
    (contract_of (VDict [("required", VList (map VStr ["external_id"; "name"]));
                         ("properties", VInt 3)]))
    (VDict [("required", VList (map VStr ["external_id"; "name"]));
            ("properties", VInt 3)])
    ["external_id"; "name"] eq_refl eq_refl).
Defined.

(** ** Fields are validated independently *)

(** X8.  The per-field evaluator of an instance cut in two is the
    evaluator of the first part followed by that of the second: the errors
    are concatenated, the verdict is the conjunction, and the first
    exception met, if any, is raised.  No field's errors depend on another
    field. *)
Theorem validate_field_types_app :
  forall (str_other : value -> string) (data1 data2 : dict) (schema : value),
    validate_field_types str_other (data1 ++ data2) schema
    = (first <- validate_field_types str_other data1 schema ;;
       second <- validate_field_types str_other data2 schema ;;
       Ok (fst first && fst second, snd first ++ snd second)).
Proof.
  intros str_other data1 data2 schema. unfold validate_field_types.
  destruct (py_get schema "properties" (VDict [])) as [properties|x];
    simpl; [|reflexivity].
  rewrite fields_loop_app, !fields_loop_collect.
  destruct (collect (map _ data1)) as [own1|x]; simpl; [|reflexivity].
  rewrite fields_loop_collect.
  destruct (collect (map _ data2)) as [own2|x]; simpl; [|reflexivity].
  rewrite is_empty_app. reflexivity.
Qed.

(** ** Enum membership is by value *)

Lemma py_eq_number (a e : value) (x : num) :
  num_of a = Some x ->
  py_eq a e = match num_of e with Some z => num_eqb x z | None => false end.
Proof.
  intros Ha. destruct a; simpl in Ha; try discriminate;
    injection Ha as <-; destruct e; reflexivity.
Qed.

Lemma num_eqb_trans (x y z : num) :
  num_eqb x y = true -> num_eqb x z = num_eqb y z.
Proof.
  destruct x as [|s|p], y as [|t|q]; simpl; try discriminate.
  - intros H. apply Bool.eqb_prop in H. subst. reflexivity.
  - intros H. apply Qeq_bool_iff in H. destruct z as [|u|r]; try reflexivity.
    destruct (Qeq_bool q r) eqn:E.
    + apply Qeq_bool_iff. apply Qeq_bool_iff in E. rewrite H. exact E.
    + destruct (Qeq_bool p r) eqn:E'; [|reflexivity].
      apply Qeq_bool_iff in E'. rewrite H in E'.
      apply Qeq_bool_iff in E'. rewrite E' in E. discriminate.
Qed.

Lemma app_one_not_self {A : Type} (l : list A) (a : A) : l ++ [a] <> l.
Proof.
  intros H. apply (f_equal (@List.length A)) in H.
  rewrite length_app in H. simpl in H. lia.
Qed.

(** X9.  The enum check compares with [==], so numbers match by value
    across [bool], [int] and [float]: two numbers of equal value pass or
    fail every enum list together (True passes an enum listing 1, and 2.0
    one listing 2). *)
Theorem enum_matches_numbers_by_value :
  forall (str_other : value -> string) (field_schema : dict) (allowed : list value)
         (field_name : string) (a b : value) (x y : num) (errors : list string),
    lookup "enum" field_schema = Some (VList allowed) ->
    num_of a = Some x -> num_of b = Some y -> num_eqb x y = true ->
    (check_enum str_other (VDict field_schema) field_name a errors = Ok errors
     <-> check_enum str_other (VDict field_schema) field_name b errors = Ok errors).
Proof.
  intros str_other field_schema allowed field_name a b x y errors Henum Ha Hb Hxy.
  assert (Hsame : existsb (py_eq a) allowed = existsb (py_eq b) allowed).
  { clear Henum. induction allowed as [|e allowed IH]; simpl; [reflexivity|].
    rewrite IH, (py_eq_number a e x Ha), (py_eq_number b e y Hb).
    destruct (num_of e) as [z|]; [|reflexivity].
    rewrite (num_eqb_trans x y z Hxy). reflexivity. }
  assert (Hcheck : forall v,
    check_enum str_other (VDict field_schema) field_name v errors = Ok errors
    <-> existsb (py_eq v) allowed = true).
  { intros v. unfold check_enum. simpl.
    rewrite (has_key_lookup _ _ _ Henum), Henum. simpl.
    destruct (existsb (py_eq v) allowed); simpl.
    - split; reflexivity.
    - split; [|discriminate]. intros H. injection H as H.
      exfalso. exact (app_one_not_self _ _ H). }
  rewrite !Hcheck, Hsame. reflexivity.
Qed.

Lemma enum_matches_numbers_by_value_witness :
  check_enum tag_text (VDict [("enum", VList [VInt 1; VInt 2])]) "level"
    (VInt 1) [] = Ok []
  <-> check_enum tag_text (VDict [("enum", VList [VInt 1; VInt 2])]) "level"
        (VBool true) [] = Ok [].
Proof.
  exact (enum_matches_numbers_by_value tag_text [("enum", VList [VInt 1; VInt 2])]
    [VInt 1; VInt 2] "level" (VInt 1) (VBool true) _ _ [] eq_refl eq_refl eq_refl
    eq_refl).
Defined.

(** ** The length check in full *)

Section LengthSpec.
Variable str_other : value -> string.



End LengthSpec.



(** ** The maximum, and values no bound rejects *)

Lemma num_ltb_one_above (p q : Q) : (q == p + 1)%Q -> num_ltb (Fin p) (Fin q) = true.
Proof.
  intros H. unfold num_ltb.
  assert (Hlt : (p < q)%Q) by (rewrite H; lra).
  rewrite (proj1 (Qlt_alt p q) Hlt). reflexivity.
Qed.

Lemma check_maximum_number str_other field_schema field_name field_value bound x y errors :
  lookup "maximum" field_schema = Some bound ->
  num_of field_value = Some x -> num_of bound = Some y ->
  check_maximum str_other (VDict field_schema) field_name field_value errors
  = Ok (if num_ltb y x
        then errors ++ [out_of_bound str_other field_name "above maximum" "max" bound]
        else errors).
Proof.
  intros Hbound Hx Hy. unfold check_maximum, py_gt. simpl.
  rewrite (has_key_lookup _ _ _ Hbound), Hbound. simpl.
  rewrite (py_lt_numbers _ _ _ _ Hy Hx). simpl.
  destruct (num_ltb y x); reflexivity.
Qed.

(** X11.  The maximum is inclusive too.  For a field declared [integer] or
    [number] whose schema has a [maximum], the range check of a number equal
    to the maximum adds nothing to what the [minimum] check returns, and of
    a number one unit above it adds "Field '<name>' above maximum (max:
    <maximum>)" after it. *)
Theorem maximum_is_inclusive :
  forall (str_other : value -> string) (field_schema : dict)
         (expected_type field_name : string) (bound field_value : value) (p q : Q)
         (errors : list string),
    expected_type = "integer" \/ expected_type = "number" ->
    lookup "maximum" field_schema = Some bound ->
    num_of bound = Some (Fin p) ->
    num_of field_value = Some (Fin q) ->
    ((q == p)%Q ->
     check_range str_other (VStr expected_type) (VDict field_schema) field_name
       field_value errors
     = check_minimum str_other (VDict field_schema) field_name field_value errors)
    /\ ((q == p + 1)%Q ->
        check_range str_other (VStr expected_type) (VDict field_schema) field_name
          field_value errors
        = (errors <- check_minimum str_other (VDict field_schema) field_name
                       field_value errors ;;
           Ok (errors ++ [("Field '" ++ field_name ++ "' above maximum (max: "
                           ++ py_str str_other bound ++ ")")%string]))).
Proof.
  intros str_other field_schema expected_type field_name bound field_value p q errors
    Htype Hbound Hp Hq.
  assert (Hgate : py_eq (VStr expected_type) (VStr "integer")
                  || py_eq (VStr expected_type) (VStr "number") = true)
    by (destruct Htype; subst; reflexivity).
  unfold check_range. rewrite Hgate.
  split; intros Hval;
    destruct (check_minimum str_other (VDict field_schema) field_name field_value errors)
      as [errors'|e]; cbn [bind]; try reflexivity;
    rewrite (check_maximum_number _ _ _ _ _ _ _ _ Hbound Hq Hp).
  - assert (Heq : (p == q)%Q) by (rewrite Hval; reflexivity).
    rewrite (num_ltb_equal _ _ Heq). reflexivity.
  - rewrite (num_ltb_one_above _ _ Hval). reflexivity.
Qed.

Lemma maximum_is_inclusive_witness :
  check_range tag_text (VStr "number") (VDict [("minimum", VInt 0); ("maximum", VInt 5)])
    "stars" (VInt 5) []
  = Ok []
  /\ check_range tag_text (VStr "number")
       (VDict [("minimum", VInt 0); ("maximum", VInt 5)]) "stars" (VInt 6) []
     = Ok ["Field 'stars' above maximum (max: 5)"].
Proof.
  split.
  - exact (proj1 (maximum_is_inclusive tag_text
      [("minimum", VInt 0); ("maximum", VInt 5)] "number" "stars" (VInt 5) (VInt 5)
      _ _ [] (or_intror eq_refl) eq_refl eq_refl eq_refl) eq_refl).
  - exact (proj2 (maximum_is_inclusive tag_text
      [("minimum", VInt 0); ("maximum", VInt 5)] "number" "stars" (VInt 5) (VInt 6)
      _ _ [] (or_intror eq_refl) eq_refl eq_refl eq_refl) eq_refl).
Defined.

(** X12.  A NaN is never out of range: every comparison with it is false,
    so for a field declared [integer] or [number] whose bounds are numbers
    (where present) the range check of [float('nan')] returns the errors
    unchanged, whatever the bounds are. *)
Theorem nan_passes_every_range :
  forall (str_other : value -> string) (field_schema : dict)
         (expected_type : value) (field_name : string) (errors : list string),
    bound_is_number "minimum" field_schema = true ->
    bound_is_number "maximum" field_schema = true ->
    check_range str_other expected_type (VDict field_schema) field_name
      (VFloat S754_nan) errors
    = Ok errors.
Proof.
  intros str_other field_schema expected_type field_name errors Hmin Hmax.
  unfold check_range.
  destruct (py_eq expected_type (VStr "integer") || py_eq expected_type (VStr "number"));
    [|reflexivity].
  assert (Hlow : check_minimum str_other (VDict field_schema) field_name
                   (VFloat S754_nan) errors = Ok errors).
  { unfold check_minimum, py_in, py_getitem, has_key.
    destruct (lookup "minimum" field_schema) as [bound|] eqn:Hbound;
      cbn [bind and_also]; [|reflexivity].
    destruct (number_of_bound _ _ _ Hmin Hbound) as [y Hy].
    rewrite (py_lt_numbers (VFloat S754_nan) bound NaN y eq_refl Hy). reflexivity. }
  rewrite Hlow. cbn [bind].
  unfold check_maximum, py_gt, py_in, py_getitem, has_key.
  destruct (lookup "maximum" field_schema) as [bound|] eqn:Hbound;
    cbn [bind and_also]; [|reflexivity].
  destruct (number_of_bound _ _ _ Hmax Hbound) as [y Hy].
  rewrite (py_lt_numbers bound (VFloat S754_nan) y NaN Hy eq_refl).
  destruct y; reflexivity.
Qed.

Lemma nan_passes_every_range_witness :
  check_range tag_text (VStr "number") (VDict [("minimum", VInt 0); ("maximum", VInt 5)])
    "ratio" (VFloat S754_nan) []
  = Ok [].
Proof.
  exact (nan_passes_every_range tag_text [("minimum", VInt 0); ("maximum", VInt 5)]
    (VStr "number") "ratio" [] eq_refl eq_refl).
Defined.

(** ** What a valid verdict guarantees *)

Lemma check_type_conforms expected_type field_name field_value :
  check_type expected_type field_name field_value [] = [] ->
  conforms expected_type field_value = true.
Proof.
  unfold check_type, conforms.
  repeat match goal with
    | |- context [if py_eq ?a ?b then _ else _] => destruct (py_eq a b)
    end;
  try reflexivity;
  match goal with
  | |- (if negb ?c then _ else _) = [] -> _ => destruct c; simpl; congruence
  end.
Qed.

Lemma collect_all_nil {A B : Type} (f : A -> result (list B)) (l : list A)
    (per_item : list (list B)) :
  collect (map f l) = Ok per_item -> List.concat per_item = [] ->
  forall a, In a l -> f a = Ok [].
Proof.
  revert per_item. induction l as [|a0 l IH]; intros per_item Hc Hnil a Hin;
    [destruct Hin|].
  simpl in Hc. destruct (f a0) as [own|x] eqn:Hown; [|discriminate].
  simpl in Hc. destruct (collect (map f l)) as [others|x]; [|discriminate].
  simpl in Hc. injection Hc as <-. simpl in Hnil.
  apply app_eq_nil in Hnil as [-> Hnil].
  destruct Hin as [<-|Hin]; [exact Hown|].
  apply (IH others eq_refl Hnil a Hin).
Qed.

Section Soundness.
Variable str_other : value -> string.

Lemma clean_field_is_declared (properties : dict) (field_name : string)
    (field_value : value) :
  validate_field str_other (VDict properties) field_name field_value [] = Ok [] ->
  exists field_schema : dict,
    lookup field_name properties = Some (VDict field_schema)
    /\ conforms (match lookup "type" field_schema with Some t => t | None => VNone end)
         field_value = true.
Proof.
  unfold validate_field, py_in, py_getitem, has_key.
  destruct (lookup field_name properties) as [field_schema|]; cbn [bind negb app];
    [|intros H; discriminate H].
  destruct field_schema; try (intros H; discriminate H). cbn [py_get bind].
  rewrite checks_in_order, prepend_nil. unfold field_checks.
  intros H. exists d. split; [reflexivity|].
  destruct (check_enum _ _ _ _ _) as [e1|x]; [|discriminate]. cbn [bind] in H.
  destruct (check_format _ _ _ _) as [e2|x]; [|discriminate]. cbn [bind] in H.
  destruct (check_length _ _ _ _ _ _) as [e3|x]; [|discriminate]. cbn [bind] in H.
  destruct (check_range _ _ _ _ _ _) as [e4|x]; [|discriminate]. cbn [bind] in H.
  injection H as H. apply app_eq_nil in H as [H _].
  apply (check_type_conforms _ field_name). exact H.
Qed.

End Soundness.

(** X13.  A valid verdict is sound for presence, declaration and type.  If
    [validate_organization] returns [True] against a schema whose [required]
    is a list of names and whose [properties] is a mapping, then its error
    list is empty, every required name is a key of the instance, and every
    field of the instance is declared in [properties] with a mapping as
    field schema and a value its declared type admits ([str] for "string",
    [int] or [bool] for "integer", these or [float] for "number", [list] for
    "array", [dict] for "object", anything for another or no type). *)
Theorem valid_verdict_is_sound :
  forall (str_other : value -> string) (data spec : dict) (schema : value)
         (names : list string) (properties : dict) (errors : list string),
    organization_schema spec = Ok schema ->
    py_get schema "required" (VList []) = Ok (VList (map VStr names)) ->
    py_get schema "properties" (VDict []) = Ok (VDict properties) ->
    validate_organization str_other data spec = Ok (true, errors) ->
    errors = []
    /\ (forall name, In name names -> has_key name data = true)
    /\ (forall field_name field_value,
          In (field_name, field_value) data ->
          exists field_schema : dict,
            lookup field_name properties = Some (VDict field_schema)
            /\ conforms (match lookup "type" field_schema with
                         | Some t => t
                         | None => VNone
                         end) field_value = true).
Proof.
  intros str_other data spec schema names properties errors Hschema Hreq Hprops Hvalid.
  unfold validate_organization in Hvalid. rewrite Hschema in Hvalid.
  cbn [bind] in Hvalid.
  unfold validate_required_fields in Hvalid. rewrite Hreq in Hvalid.
  cbn [bind py_iter] in Hvalid. rewrite required_loop_names in Hvalid.
  cbn [bind snd app] in Hvalid.
  unfold validate_field_types in Hvalid. rewrite Hprops in Hvalid.
  cbn [bind] in Hvalid. rewrite fields_loop_collect in Hvalid.
  destruct (collect _) as [per_field|x] eqn:Hcollect; [|discriminate].
  cbn [bind snd app] in Hvalid. injection Hvalid as Hempty Herrors.
  rewrite Herrors in Hempty.
  assert (Hnil : errors = []) by (destruct errors; [reflexivity|discriminate Hempty]).
  rewrite Hnil in Herrors. apply app_eq_nil in Herrors as [Hmissing Hfields].
  split; [exact Hnil|]. split.
  - apply no_missing_names.
    destruct (filter _ names); [reflexivity|discriminate Hmissing].
  - intros field_name field_value Hin.
    apply clean_field_is_declared with (str_other := str_other).
    apply (collect_all_nil _ _ _ Hcollect Hfields (field_name, field_value) Hin).
Qed.

Lemma valid_verdict_is_sound_witness :
  [] = @nil string
  /\ (forall name, In name ["name"] ->
        has_key name [("name", VStr "Acme"); ("staff", VBool true)] = true)
  /\ (forall field_name field_value,
        In (field_name, field_value) [("name", VStr "Acme"); ("staff", VBool true)] ->
        exists field_schema : dict,
          lookup field_name
            [("name", VDict [("type", VStr "string")]);
             ("staff", VDict [("type", VStr "integer")])]
          = Some (VDict field_schema)
          /\ conforms (match lookup "type" field_schema with
                       | Some t => t
                       | None => VNone
                       end) field_value = true).
Proof.
  exact (valid_verdict_is_sound tag_text
    [("name", VStr "Acme"); ("staff", VBool true)]
    (contract_of (VDict [("required", VList (map VStr ["name"]));
                         ("properties",
                          VDict [("name", VDict [("type", VStr "string")]);
                                 ("staff", VDict [("type", VStr "integer")])])]))
    (VDict [("required", VList (map VStr ["name"]));
            ("properties",
             VDict [("name", VDict [("type", VStr "string")]);
                    ("staff", VDict [("type", VStr "integer")])])])
    ["name"]
    [("name", VDict [("type", VStr "string")]);
     ("staff", VDict [("type", VStr "integer")])]
    [] eq_refl eq_refl eq_refl eq_refl).
Defined.

(** ** Instances the pass completes on *)

Section Totality.
Variable str_other : value -> string.


End Totality.



(** ** How many errors one field can get *)

Section ErrorCount.
Variable str_other : value -> string.

Ltac count_checks :=
  repeat match goal with
    | |- context [bind ?m _] => destruct m; cbn [bind]
    | |- context [and_also ?b _] => destruct b; cbn [and_also]
    | |- context [if ?b then _ else _] => destruct b
    end;
  intros added H; try discriminate H; injection H as <-; simpl; lia.

Lemma check_type_count expected_type field_name field_value :
  (List.length (check_type expected_type field_name field_value []) <= 1)%nat.
Proof.
  unfold check_type.
  repeat match goal with
    | |- context [if ?b then _ else _] => destruct b
    end; simpl; lia.
Qed.

Lemma check_enum_count field_schema field_name field_value :
  forall added,
    check_enum str_other field_schema field_name field_value [] = Ok added ->
    (List.length added <= 1)%nat.
Proof. unfold check_enum. count_checks. Qed.

Lemma check_format_count field_schema field_name field_value :
  forall added,
    check_format field_schema field_name field_value [] = Ok added ->
    (List.length added <= 1)%nat.
Proof. unfold check_format. count_checks. Qed.

Lemma check_min_length_count field_schema field_name field_value :
  forall added,
    check_min_length str_other field_schema field_name field_value [] = Ok added ->
    (List.length added <= 1)%nat.
Proof. unfold check_min_length. count_checks. Qed.

Lemma check_max_length_count field_schema field_name field_value :
  forall added,
    check_max_length str_other field_schema field_name field_value [] = Ok added ->
    (List.length added <= 1)%nat.
Proof. unfold check_max_length. count_checks. Qed.

Lemma check_minimum_count field_schema field_name field_value :
  forall added,
    check_minimum str_other field_schema field_name field_value [] = Ok added ->
    (List.length added <= 1)%nat.
Proof. unfold check_minimum. count_checks. Qed.

Lemma check_maximum_count field_schema field_name field_value :
  forall added,
    check_maximum str_other field_schema field_name field_value [] = Ok added ->
    (List.length added <= 1)%nat.
Proof. unfold check_maximum. count_checks. Qed.

Lemma check_length_range_count expected_type field_schema field_name field_value
    from_length from_range :
  check_length str_other expected_type field_schema field_name field_value []
    = Ok from_length ->
  check_range str_other expected_type field_schema field_name field_value []
    = Ok from_range ->
  (List.length from_length + List.length from_range <= 2)%nat.
Proof.
  unfold check_length, check_range.
  destruct (py_eq expected_type (VStr "string")) eqn:Hstring.
  - apply py_eq_literal in Hstring. subst expected_type.
    cbn [py_eq String.eqb Ascii.eqb Bool.eqb orb].
    destruct (check_min_length _ _ _ _ _) as [short|x] eqn:Hshort;
      [|intros H; discriminate H].
    cbn [bind]. rewrite check_max_length_appends.
    destruct (check_max_length _ _ _ _ _) as [long|x] eqn:Hlong;
      [|intros H; discriminate H].
    cbn [prepend]. intros H1 H2. injection H1 as <-. injection H2 as <-.
    apply check_min_length_count in Hshort. apply check_max_length_count in Hlong.
    rewrite length_app. simpl. lia.
  - intros H1. injection H1 as <-.
    destruct (py_eq expected_type (VStr "integer") || py_eq expected_type (VStr "number"));
      [|intros H; injection H as <-; simpl; lia].
    destruct (check_minimum _ _ _ _ _) as [low|x] eqn:Hlow;
      [|intros H; discriminate H].
    cbn [bind]. rewrite check_maximum_appends.
    destruct (check_maximum _ _ _ _ _) as [high|x] eqn:Hhigh;
      [|intros H; discriminate H].
    cbn [prepend]. intros H2. injection H2 as <-.
    apply check_minimum_count in Hlow. apply check_maximum_count in Hhigh.
    rewrite length_app. simpl. lia.
Qed.

End ErrorCount.

(** X15.  One field adds at most five errors to the list: one each from the
    type, enum and format checks and two from the bounds, because the
    length bounds are only read for a field declared "string" and the range
    bounds only for one declared "integer" or "number". *)
Theorem field_adds_at_most_five_errors :
  forall (str_other : value -> string) (properties : value) (field_name : string)
         (field_value : value) (errors final : list string),
    validate_field str_other properties field_name field_value errors = Ok final ->
    exists added,
      final = errors ++ added /\ (List.length added <= 5)%nat.
Proof.
  intros str_other properties field_name field_value errors final.
  rewrite validate_field_appends. unfold validate_field.
  destruct (py_in (VStr field_name) properties) as [declared|x]; cbn [bind prepend];
    [|intros H; discriminate H].
  destruct declared; cbn [negb].
  - destruct (py_getitem properties field_name) as [field_schema|x];
      cbn [bind prepend]; [|intros H; discriminate H].
    destruct (py_get field_schema "type" VNone) as [expected_type|x];
      cbn [bind prepend]; [|intros H; discriminate H].
    rewrite checks_in_order, prepend_nil. unfold field_checks.
    destruct (check_enum _ _ _ _ _) as [e1|x] eqn:H1; cbn [bind prepend];
      [|intros H; discriminate H].
    destruct (check_format _ _ _ _) as [e2|x] eqn:H2; cbn [bind prepend];
      [|intros H; discriminate H].
    destruct (check_length _ _ _ _ _ _) as [e3|x] eqn:H3; cbn [bind prepend];
      [|intros H; discriminate H].
    destruct (check_range _ _ _ _ _ _) as [e4|x] eqn:H4; cbn [bind prepend];
      [|intros H; discriminate H].
    intros H. injection H as <-. eexists. split; [reflexivity|].
    pose proof (check_type_count expected_type field_name field_value) as Ht.
    apply check_enum_count in H1. apply check_format_count in H2.
    pose proof (check_length_range_count str_other _ _ _ _ _ _ H3 H4) as H34.
    rewrite !length_app. lia.
  - intros H. injection H as <-. eexists. split; [reflexivity|]. simpl. lia.
Qed.

Lemma field_adds_at_most_five_errors_witness :
  exists added,
    ["earlier"; "Field 'contact' is not a valid email";
     "Field 'contact' too short (min: 5)"; "Field 'contact' too long (max: 2)"]
    = ["earlier"] ++ added
    /\ (List.length added <= 5)%nat.
Proof.
  exact (field_adds_at_most_five_errors tag_text
    (VDict [("contact", VDict [("type", VStr "string"); ("format", VStr "email");
                               ("minLength", VInt 5); ("maxLength", VInt 2)])])
    "contact" (VStr "abc") ["earlier"] _ eq_refl).
Defined.

(** ** What a valid verdict guarantees about the constraints *)

Lemma py_lt_left_not_number (a b : value) (y : num) :
  num_of a = None -> num_of b = Some y -> py_lt a b = Raise TypeError.
Proof.
  intros Ha Hb. destruct a; simpl in Ha; try discriminate;
    destruct b; simpl in Hb; try discriminate; reflexivity.
Qed.

Lemma py_lt_right_not_number (a b : value) (x : num) :
  num_of a = Some x -> num_of b = None -> py_lt a b = Raise TypeError.
Proof.
  intros Ha Hb. destruct a; simpl in Ha; try discriminate;
    destruct b; simpl in Hb; try discriminate; reflexivity.
Qed.

Section Constraints.
Variable str_other : value -> string.

Lemma clean_enum field_schema field_name field_value :
  check_enum str_other (VDict field_schema) field_name field_value [] = Ok [] ->
  satisfies_enum field_schema field_value.
Proof.
  intros H allowed Henum. unfold check_enum, py_in, py_getitem in H.
  rewrite (has_key_lookup _ _ _ Henum), Henum in H. cbn [bind] in H.
  destruct (existsb (py_eq field_value) allowed); [reflexivity|discriminate H].
Qed.

Lemma clean_format field_schema field_name field_value :
  check_format (VDict field_schema) field_name field_value [] = Ok [] ->
  satisfies_format field_schema field_value.
Proof.
  intros H. unfold check_format, py_getitem in H. cbn [py_in] in H.
  repeat split; intros Hformat;
    rewrite (has_key_lookup _ _ _ Hformat), Hformat in H;
    cbn [bind and_also py_eq String.eqb Ascii.eqb Bool.eqb] in H.
  - destruct field_value; try discriminate H. simpl in H.
    destruct (uuid_pattern (lower s)) eqn:E; [|discriminate H].
    exists s. split; [reflexivity|exact E].
  - destruct (py_in (VStr "@") field_value) as [[|]|x]; simpl in H;
      [reflexivity|discriminate H|discriminate H].
  - destruct field_value; try discriminate H. simpl in H.
    destruct (String.prefix "http://" s || String.prefix "https://" s) eqn:E;
      [|discriminate H].
    exists s. split; [reflexivity|exact E].
Qed.

Lemma clean_min_length field_schema field_name field_value a :
  check_min_length str_other (VDict field_schema) field_name field_value [] = Ok [] ->
  lookup "minLength" field_schema = Some (VInt a) ->
  exists len, py_len field_value = Ok len /\ (a <= len)%Z.
Proof.
  intros H Hbound. unfold check_min_length, py_in, py_getitem in H.
  rewrite (has_key_lookup _ _ _ Hbound), Hbound in H. cbn [bind and_also] in H.
  destruct (py_len field_value) as [len|x]; [|discriminate H]. cbn [bind] in H.
  rewrite (py_lt_numbers (VInt len) (VInt a) _ _ eq_refl eq_refl), num_ltb_int in H.
  cbn [bind] in H. destruct (len <? a)%Z eqn:E; [discriminate H|].
  exists len. split; [reflexivity|]. apply Z.ltb_ge. exact E.
Qed.

Lemma clean_max_length field_schema field_name field_value b :
  check_max_length str_other (VDict field_schema) field_name field_value [] = Ok [] ->
  lookup "maxLength" field_schema = Some (VInt b) ->
  exists len, py_len field_value = Ok len /\ (len <= b)%Z.
Proof.
  intros H Hbound. unfold check_max_length, py_gt, py_in, py_getitem in H.
  rewrite (has_key_lookup _ _ _ Hbound), Hbound in H. cbn [bind and_also] in H.
  destruct (py_len field_value) as [len|x]; [|discriminate H]. cbn [bind] in H.
  rewrite (py_lt_numbers (VInt b) (VInt len) _ _ eq_refl eq_refl), num_ltb_int in H.
  cbn [bind] in H. destruct (b <? len)%Z eqn:E; [discriminate H|].
  exists len. split; [reflexivity|]. apply Z.ltb_ge. exact E.
Qed.

Lemma clean_minimum field_schema field_name field_value bound y :
  check_minimum str_other (VDict field_schema) field_name field_value [] = Ok [] ->
  lookup "minimum" field_schema = Some bound -> num_of bound = Some y ->
  exists x, num_of field_value = Some x /\ num_ltb x y = false.
Proof.
  intros H Hbound Hy. unfold check_minimum, py_in, py_getitem in H.
  rewrite (has_key_lookup _ _ _ Hbound), Hbound in H. cbn [bind and_also] in H.
  destruct (num_of field_value) as [x|] eqn:Hx.
  - rewrite (py_lt_numbers _ _ _ _ Hx Hy) in H. cbn [bind] in H.
    destruct (num_ltb x y) eqn:E; [discriminate H|].
    exists x. split; [reflexivity|exact E].
  - rewrite (py_lt_left_not_number _ _ _ Hx Hy) in H. discriminate H.
Qed.

Lemma clean_maximum field_schema field_name field_value bound y :
  check_maximum str_other (VDict field_schema) field_name field_value [] = Ok [] ->
  lookup "maximum" field_schema = Some bound -> num_of bound = Some y ->
  exists x, num_of field_value = Some x /\ num_ltb y x = false.
Proof.
  intros H Hbound Hy. unfold check_maximum, py_gt, py_in, py_getitem in H.
  rewrite (has_key_lookup _ _ _ Hbound), Hbound in H. cbn [bind and_also] in H.
  destruct (num_of field_value) as [x|] eqn:Hx.
  - rewrite (py_lt_numbers _ _ _ _ Hy Hx) in H. cbn [bind] in H.
    destruct (num_ltb y x) eqn:E; [discriminate H|].
    exists x. split; [reflexivity|exact E].
  - rewrite (py_lt_right_not_number _ _ _ Hy Hx) in H. discriminate H.
Qed.

Lemma prepend_nil_inv (errors : list string) (r : result (list string)) :
  prepend errors r = Ok [] -> errors = [] /\ r = Ok [].
Proof.
  destruct r as [added|x]; simpl; [|discriminate].
  intros H. injection H as H. apply app_eq_nil in H as [-> ->].
  split; reflexivity.
Qed.

Lemma clean_length field_schema field_name field_value :
  check_length str_other (VStr "string") (VDict field_schema) field_name field_value []
    = Ok [] ->
  (forall a, lookup "minLength" field_schema = Some (VInt a) ->
             exists len, py_len field_value = Ok len /\ (a <= len)%Z)
  /\ (forall b, lookup "maxLength" field_schema = Some (VInt b) ->
                exists len, py_len field_value = Ok len /\ (len <= b)%Z).
Proof.
  unfold check_length. cbn [py_eq String.eqb Ascii.eqb Bool.eqb].
  destruct (check_min_length _ _ _ _ _) as [short|x] eqn:Hshort;
    [|intros H; discriminate H].
  cbn [bind]. rewrite check_max_length_appends. intros H.
  apply prepend_nil_inv in H as [-> Hlong]. split.
  - intros a. apply clean_min_length with (field_name := field_name). exact Hshort.
  - intros b. apply clean_max_length with (field_name := field_name). exact Hlong.
Qed.

Lemma clean_range expected_type field_schema field_name field_value :
  py_eq expected_type (VStr "integer") || py_eq expected_type (VStr "number") = true ->
  check_range str_other expected_type (VDict field_schema) field_name field_value []
    = Ok [] ->
  (forall bound y, lookup "minimum" field_schema = Some bound ->
                   num_of bound = Some y ->
                   exists x, num_of field_value = Some x /\ num_ltb x y = false)
  /\ (forall bound y, lookup "maximum" field_schema = Some bound ->
                      num_of bound = Some y ->
                      exists x, num_of field_value = Some x /\ num_ltb y x = false).
Proof.
  intros Hgate. unfold check_range. rewrite Hgate.
  destruct (check_minimum _ _ _ _ _) as [low|x] eqn:Hlow;
    [|intros H; discriminate H].
  cbn [bind]. rewrite check_maximum_appends. intros H.
  apply prepend_nil_inv in H as [-> Hhigh]. split.
  - intros bound y. apply clean_minimum with (field_name := field_name). exact Hlow.
  - intros bound y. apply clean_maximum with (field_name := field_name). exact Hhigh.
Qed.

Lemma clean_field_satisfies (properties : dict) (field_name : string)
    (field_value : value) :
  validate_field str_other (VDict properties) field_name field_value [] = Ok [] ->
  exists field_schema : dict,
    lookup field_name properties = Some (VDict field_schema)
    /\ satisfies_enum field_schema field_value
    /\ satisfies_format field_schema field_value
    /\ satisfies_length field_schema field_value
    /\ satisfies_range field_schema field_value.
Proof.
  unfold validate_field, py_in, py_getitem, has_key.
  destruct (lookup field_name properties) as [field_schema|]; cbn [bind negb app];
    [|intros H; discriminate H].
  destruct field_schema; try (intros H; discriminate H). cbn [py_get bind].
  rewrite checks_in_order, prepend_nil. unfold field_checks.
  intros H. exists d. split; [reflexivity|].
  destruct (check_enum _ _ _ _ _) as [e1|x] eqn:H1; [|discriminate H].
  cbn [bind] in H.
  destruct (check_format _ _ _ _) as [e2|x] eqn:H2; [|discriminate H].
  cbn [bind] in H.
  destruct (check_length _ _ _ _ _ _) as [e3|x] eqn:H3; [|discriminate H].
  cbn [bind] in H.
  destruct (check_range _ _ _ _ _ _) as [e4|x] eqn:H4; [|discriminate H].
  cbn [bind] in H. injection H as H.
  apply app_eq_nil in H as [_ H]. apply app_eq_nil in H as [-> H].
  apply app_eq_nil in H as [-> H]. apply app_eq_nil in H as [-> ->].
  split; [exact (clean_enum _ _ _ H1)|].
  split; [exact (clean_format _ _ _ H2)|].
  split.
  - intros Htype. rewrite Htype in H3. exact (clean_length _ _ _ H3).
  - intros Htype.
    apply (clean_range
             (match lookup "type" d with Some t => t | None => VNone end)
             d field_name); [|exact H4].
    destruct Htype as [-> | ->]; reflexivity.
Qed.

End Constraints.

(** X16.  A valid verdict is sound for the constraints.  If
    [validate_organization] returns [True] against a schema whose [required]
    is a list of names and whose [properties] is a mapping, then every field
    of the instance is declared and its value is a member of the field's
    [enum] list, passes its format ("uuid", "email", "uri"), has a length
    within the integer [minLength] and [maxLength] of a field declared
    "string", and is a number within the numeric [minimum] and [maximum] of
    a field declared "integer" or "number". *)
Theorem valid_verdict_meets_constraints :
  forall (str_other : value -> string) (data spec : dict) (schema : value)
         (names : list string) (properties : dict) (errors : list string),
    organization_schema spec = Ok schema ->
    py_get schema "required" (VList []) = Ok (VList (map VStr names)) ->
    py_get schema "properties" (VDict []) = Ok (VDict properties) ->
    validate_organization str_other data spec = Ok (true, errors) ->
    forall field_name field_value,
      In (field_name, field_value) data ->
      exists field_schema : dict,
        lookup field_name properties = Some (VDict field_schema)
        /\ satisfies_enum field_schema field_value
        /\ satisfies_format field_schema field_value
        /\ satisfies_length field_schema field_value
        /\ satisfies_range field_schema field_value.
Proof.
  intros str_other data spec schema names properties errors Hschema Hreq Hprops Hvalid
    field_name field_value Hin.
  unfold validate_organization in Hvalid. rewrite Hschema in Hvalid.
  cbn [bind] in Hvalid.
  unfold validate_required_fields in Hvalid. rewrite Hreq in Hvalid.
  cbn [bind py_iter] in Hvalid. rewrite required_loop_names in Hvalid.
  cbn [bind snd app] in Hvalid.
  unfold validate_field_types in Hvalid. rewrite Hprops in Hvalid.
  cbn [bind] in Hvalid. rewrite fields_loop_collect in Hvalid.
  destruct (collect _) as [per_field|x] eqn:Hcollect; [|discriminate].
  cbn [bind snd app] in Hvalid. injection Hvalid as Hempty Herrors.
  rewrite Herrors in Hempty.
  assert (Hnil : errors = []) by (destruct errors; [reflexivity|discriminate Hempty]).
  rewrite Hnil in Herrors. apply app_eq_nil in Herrors as [_ Hfields].
  apply clean_field_satisfies with (str_other := str_other).
  apply (collect_all_nil _ _ _ Hcollect Hfields (field_name, field_value) Hin).
Qed.

Lemma valid_verdict_meets_constraints_witness :
  exists field_schema : dict,
    lookup "stars"
      [("name", VDict [("type", VStr "string"); ("maxLength", VInt 4)]);
       ("stars", VDict [("type", VStr "integer"); ("maximum", VInt 5);
                        ("enum", VList [VInt 1; VInt 5])])]
    = Some (VDict field_schema)
    /\ satisfies_enum field_schema (VInt 5)
    /\ satisfies_format field_schema (VInt 5)
    /\ satisfies_length field_schema (VInt 5)
    /\ satisfies_range field_schema (VInt 5).
Proof.
  exact (valid_verdict_meets_constraints tag_text
    [("name", VStr "Acme"); ("stars", VInt 5)]
    (contract_of (VDict [("properties",
       VDict [("name", VDict [("type", VStr "string"); ("maxLength", VInt 4)]);
              ("stars", VDict [("type", VStr "integer"); ("maximum", VInt 5);
                               ("enum", VList [VInt 1; VInt 5])])])]))
    (VDict [("properties",
       VDict [("name", VDict [("type", VStr "string"); ("maxLength", VInt 4)]);
              ("stars", VDict [("type", VStr "integer"); ("maximum", VInt 5);
                               ("enum", VList [VInt 1; VInt 5])])])])
    []
    [("name", VDict [("type", VStr "string"); ("maxLength", VInt 4)]);
     ("stars", VDict [("type", VStr "integer"); ("maximum", VInt 5);
                      ("enum", VList [VInt 1; VInt 5])])]
    [] eq_refl eq_refl eq_refl eq_refl
    "stars" (VInt 5) (or_intror (or_introl eq_refl))).
Defined.

(** ** Every error names its field *)

Lemma collect_concat_origin {A B : Type} (f : A -> result (list B)) (l : list A)
    (per_item : list (list B)) (b : B) :
  collect (map f l) = Ok per_item -> In b (List.concat per_item) ->
  exists a own, In a l /\ f a = Ok own /\ In b own.
Proof.
  revert per_item. induction l as [|a0 l IH]; intros per_item Hc Hin.
  - simpl in Hc. injection Hc as <-. destruct Hin.
  - simpl in Hc. destruct (f a0) as [own|x] eqn:Hown; [|discriminate Hc].
    cbn [bind] in Hc.
    destruct (collect (map f l)) as [others|x]; [|discriminate Hc].
    cbn [bind] in Hc. injection Hc as <-. simpl in Hin.
    apply in_app_or in Hin as [Hin|Hin].
    + exists a0, own. repeat split; [left; reflexivity|exact Hown|exact Hin].
    + destruct (IH others eq_refl Hin) as [a [own' [Ha [Hf Hb]]]].
      exists a, own'. repeat split; [right; exact Ha|exact Hf|exact Hb].
Qed.

Section Naming.
Variable str_other : value -> string.

Ltac named_checks :=
  repeat match goal with
    | |- context [bind ?m _] => destruct m; cbn [bind]
    | |- context [and_also ?b _] => destruct b; cbn [and_also]
    | |- context [if ?b then _ else _] => destruct b
    end;
  intros added H; try discriminate H; injection H as <-; cbn [app];
  repeat (apply Forall_nil || (apply Forall_cons; [right; eexists; reflexivity|])).

Lemma check_type_names expected_type field_name field_value :
  Forall (names_field field_name) (check_type expected_type field_name field_value []).
Proof.
  unfold check_type.
  repeat match goal with
    | |- context [if ?b then _ else _] => destruct b
    end;
  repeat (apply Forall_nil || (apply Forall_cons; [right; eexists; reflexivity|])).
Qed.

Lemma check_enum_names field_schema field_name field_value :
  forall added,
    check_enum str_other field_schema field_name field_value [] = Ok added ->
    Forall (names_field field_name) added.
Proof. unfold check_enum. named_checks. Qed.

Lemma check_format_names field_schema field_name field_value :
  forall added,
    check_format field_schema field_name field_value [] = Ok added ->
    Forall (names_field field_name) added.
Proof. unfold check_format. named_checks. Qed.

Lemma check_min_length_names field_schema field_name field_value :
  forall added,
    check_min_length str_other field_schema field_name field_value [] = Ok added ->
    Forall (names_field field_name) added.
Proof. unfold check_min_length. named_checks. Qed.

Lemma check_max_length_names field_schema field_name field_value :
  forall added,
    check_max_length str_other field_schema field_name field_value [] = Ok added ->
    Forall (names_field field_name) added.
Proof. unfold check_max_length. named_checks. Qed.

Lemma check_minimum_names field_schema field_name field_value :
  forall added,
    check_minimum str_other field_schema field_name field_value [] = Ok added ->
    Forall (names_field field_name) added.
Proof. unfold check_minimum. named_checks. Qed.

Lemma check_maximum_names field_schema field_name field_value :
  forall added,
    check_maximum str_other field_schema field_name field_value [] = Ok added ->
    Forall (names_field field_name) added.
Proof. unfold check_maximum. named_checks. Qed.

Lemma check_length_names expected_type field_schema field_name field_value :
  forall added,
    check_length str_other expected_type field_schema field_name field_value []
      = Ok added ->
    Forall (names_field field_name) added.
Proof.
  intros added. unfold check_length.
  destruct (py_eq expected_type (VStr "string"));
    [|intros H; injection H as <-; apply Forall_nil].
  destruct (check_min_length _ _ _ _ _) as [short|x] eqn:Hshort;
    [|intros H; discriminate H].
  cbn [bind]. rewrite check_max_length_appends.
  destruct (check_max_length _ _ _ _ _) as [long|x] eqn:Hlong;
    [|intros H; discriminate H].
  cbn [prepend]. intros H. injection H as <-. apply Forall_app. split.
  - exact (check_min_length_names _ _ _ _ Hshort).
  - exact (check_max_length_names _ _ _ _ Hlong).
Qed.

Lemma check_range_names expected_type field_schema field_name field_value :
  forall added,
    check_range str_other expected_type field_schema field_name field_value []
      = Ok added ->
    Forall (names_field field_name) added.
Proof.
  intros added. unfold check_range.
  destruct (py_eq expected_type (VStr "integer") || py_eq expected_type (VStr "number"));
    [|intros H; injection H as <-; apply Forall_nil].
  destruct (check_minimum _ _ _ _ _) as [low|x] eqn:Hlow;
    [|intros H; discriminate H].
  cbn [bind]. rewrite check_maximum_appends.
  destruct (check_maximum _ _ _ _ _) as [high|x] eqn:Hhigh;
    [|intros H; discriminate H].
  cbn [prepend]. intros H. injection H as <-. apply Forall_app. split.
  - exact (check_minimum_names _ _ _ _ Hlow).
  - exact (check_maximum_names _ _ _ _ Hhigh).
Qed.

Lemma validate_field_names properties field_name field_value own :
  validate_field str_other properties field_name field_value [] = Ok own ->
  Forall (names_field field_name) own.
Proof.
  unfold validate_field.
  destruct (py_in (VStr field_name) properties) as [declared|x]; cbn [bind];
    [|intros H; discriminate H].
  destruct declared; cbn [negb].
  - destruct (py_getitem properties field_name) as [field_schema|x];
      cbn [bind]; [|intros H; discriminate H].
    destruct (py_get field_schema "type" VNone) as [expected_type|x];
      cbn [bind]; [|intros H; discriminate H].
    rewrite checks_in_order, prepend_nil. unfold field_checks.
    destruct (check_enum _ _ _ _ _) as [e1|x] eqn:H1; cbn [bind];
      [|intros H; discriminate H].
    destruct (check_format _ _ _ _) as [e2|x] eqn:H2; cbn [bind];
      [|intros H; discriminate H].
    destruct (check_length _ _ _ _ _ _) as [e3|x] eqn:H3; cbn [bind];
      [|intros H; discriminate H].
    destruct (check_range _ _ _ _ _ _) as [e4|x] eqn:H4; cbn [bind];
      [|intros H; discriminate H].
    intros H. injection H as <-.
    apply Forall_app. split; [apply check_type_names|].
    apply Forall_app. split; [exact (check_enum_names _ _ _ _ H1)|].
    apply Forall_app. split; [exact (check_format_names _ _ _ _ H2)|].
    apply Forall_app. split; [exact (check_length_names _ _ _ _ _ H3)|].
    exact (check_range_names _ _ _ _ _ H4).
  - intros H. injection H as <-.
    apply Forall_cons; [left; reflexivity|apply Forall_nil].
Qed.

End Naming.

(** X17.  Every error the per-field evaluator returns names a field of the
    instance: it is "Unknown field: <name>" or starts with "Field '<name>' "
    for the name of one of the instance's keys. *)
Theorem field_errors_name_a_field :
  forall (str_other : value -> string) (data : dict) (schema : value)
         (valid : bool) (errors : list string),
    validate_field_types str_other data schema = Ok (valid, errors) ->
    forall message, In message errors ->
      exists field_name, In field_name (map fst data) /\ names_field field_name message.
Proof.
  intros str_other data schema valid errors Hrun message Hin.
  unfold validate_field_types in Hrun.
  destruct (py_get schema "properties" (VDict [])) as [properties|x];
    cbn [bind] in Hrun; [|discriminate Hrun].
  rewrite fields_loop_collect in Hrun.
  destruct (collect _) as [per_field|x] eqn:Hcollect; cbn [bind] in Hrun;
    [|discriminate Hrun].
  injection Hrun as _ <-. cbn [app] in Hin.
  destruct (collect_concat_origin _ _ _ _ Hcollect Hin) as [[name v] [own [Hitem [Hown Hmsg]]]].
  exists name. split.
  - apply in_map_iff. exists (name, v). split; [reflexivity|exact Hitem].
  - apply validate_field_names in Hown.
    rewrite Forall_forall in Hown. apply Hown, Hmsg.
Qed.

Lemma field_errors_name_a_field_witness :
  exists field_name,
    In field_name (map fst [("name", VInt 5); ("rank", VNone)])
    /\ names_field field_name "Unknown field: rank".
Proof.
  exact (field_errors_name_a_field tag_text [("name", VInt 5); ("rank", VNone)]
    (schema_of_field "name" [("type", VStr "string")]) false
    ["Field 'name' must be string, got int"; "Unknown field: rank"] eq_refl
    "Unknown field: rank" (or_intror (or_introl eq_refl))).
Defined.
